(** * Djerba: the plugin orchestrator, the demo1 plugin and the simple reader

    A shallow embedding of
    - [djerba/simple/reader.py]    (classes [reader], [reader_factory] and
                                    [json_reader]),
    - [djerba/core/main.py]        (class [main]: configure, extract, render),
    - [djerba/plugins/demo1/plugin.py]
    and the properties of these that the specification states.

    Python values are embedded as follows.  JSON data is the inductive [json];
    a [dict] with string keys is an association list in insertion order
    (Python dicts iterate in insertion order, and assignment to an existing
    key keeps its position); a [set] of strings is a [gset string]; an
    exception is a value of [exn] and a call that may raise returns a
    [result].  Stateful code is written in the monad [M], which threads the
    interpreter state and keeps the state reached when an exception is
    raised.

    The classes [main] works with that are not among the sources (the path
    and JSON validators, the core configurer, extractor and renderer, the
    plugin registry) are the fields of the class [Collaborators]; the
    methods of [plugin_base] that the demo1 plugin calls are the fields of
    [PluginBase.Ops].  [plugin_loader.load] and the constants of
    [core_constants], neither of which is among the sources, are modelled
    from the specification, and say so.  [djerba/util/ini_fields.py] is
    among the sources and is embedded as it is: a reference to a name it
    does not bind raises [AttributeError]. *)

From stdpp Require Import base strings list gmap pretty.

#[global] Set Warnings "-clear-no-such-hyp".

Open Scope string_scope.
Open Scope list_scope.

(** ** Python values, exceptions and results *)

#[warnings="-register-all"]
Inductive json : Type :=
| JNull
| JBool (b : bool)
| JInt (z : Z)
| JStr (s : string)
| JList (items : list json)
| JObj (members : list (string * json)).

(** JSON numbers are embedded as integers: none of the modelled code
    computes with them. *)

(** [v is None] *)
Definition is_null (v : json) : bool :=
  match v with
  | JNull => true
  | _ => false
  end.

Inductive exn : Type :=
| AttributeError (msg : string)
| TypeError (msg : string)
| KeyError (key : string)
| ValueError (msg : string)
| RuntimeError (msg : string)
| OSError (msg : string)
| ImportError (msg : string)
| ValidationError (msg : string)
| ParameterError (msg : string).

Inductive result (A : Type) : Type :=
| Ok (a : A)
| Err (e : exn).
Arguments Ok {A} a.
Arguments Err {A} e.

Definition rbind {A B} (r : result A) (k : A -> result B) : result B :=
  match r with
  | Ok a => k a
  | Err e => Err e
  end.

Declare Scope result_scope.
Delimit Scope result_scope with res.
Notation "x <-? r ; k" := (rbind r (fun x => k))
  (at level 100, r at next level, right associativity) : result_scope.

(** [try: r except KeyError: raise e'] *)
Definition except_KeyError {A} (r : result A) (e' : exn) : result A :=
  match r with
  | Err (KeyError _) => Err e'
  | _ => r
  end.

(** A loop [for x in xs: body] over a local accumulator, any iteration of
    which may raise. *)
Fixpoint for_each {A S} (xs : list A) (body : A -> S -> result S) (s : S)
  : result S :=
  match xs with
  | [] => Ok s
  | x :: xs' => rbind (body x s) (for_each xs' body)
  end.

(** ** Dictionaries with string keys, in insertion order *)

Abbreviation dict V := (list (string * V)).

Fixpoint dict_get {V} (k : string) (d : dict V) : option V :=
  match d with
  | [] => None
  | (k', v) :: d' => if decide (k' = k) then Some v else dict_get k d'
  end.

(** [d[k] = v]: an existing key keeps its position, a new key goes last. *)
Fixpoint dict_set {V} (k : string) (v : V) (d : dict V) : dict V :=
  match d with
  | [] => [(k, v)]
  | (k', v') :: d' =>
      if decide (k' = k) then (k', v) :: d' else (k', v') :: dict_set k v d'
  end.

Definition dict_keys {V} (d : dict V) : list string := d.*1.

(** ** Operations of the Python object model used by the sources *)

(** [obj[k]] for a string [k]. *)
Definition py_getitem (obj : json) (k : string) : result json :=
  match obj with
  | JObj d =>
      match dict_get k d with
      | Some v => Ok v
      | None => Err (KeyError k)
      end
  | JList _ => Err (TypeError "list indices must be integers or slices, not str")
  | JStr _ => Err (TypeError "string indices must be integers")
  | _ => Err (TypeError "object is not subscriptable")
  end.

(** [obj.get(k)]: only a dict has the method; a missing key gives [None]. *)
Definition py_get (obj : json) (k : string) : result json :=
  match obj with
  | JObj d => Ok (default JNull (dict_get k d))
  | _ => Err (AttributeError "object has no attribute 'get'")
  end.

(** [obj.keys()] *)
Definition py_keys (obj : json) : result (list string) :=
  match obj with
  | JObj d => Ok (dict_keys d)
  | _ => Err (AttributeError "object has no attribute 'keys'")
  end.

Fixpoint chars (s : string) : list string :=
  match s with
  | EmptyString => []
  | String c s' => String c EmptyString :: chars s'
  end.

(** The elements [for x in obj] visits. *)
Definition py_iter (obj : json) : result (list json) :=
  match obj with
  | JList l => Ok l
  | JObj d => Ok (JStr <$> dict_keys d)
  | JStr s => Ok (JStr <$> chars s)
  | _ => Err (TypeError "object is not iterable")
  end.

(** Hashable JSON values, the keys a Python dict accepts. *)
Inductive pykey : Type :=
| KNone
| KBool (b : bool)
| KInt (z : Z)
| KStr (s : string).

Definition to_key (v : json) : result pykey :=
  match v with
  | JNull => Ok KNone
  | JBool b => Ok (KBool b)
  | JInt z => Ok (KInt z)
  | JStr s => Ok (KStr s)
  | JList _ => Err (TypeError "unhashable type: 'list'")
  | JObj _ => Err (TypeError "unhashable type: 'dict'")
  end.

(** Python's [==] on keys: [True == 1] and [False == 0]. *)
Definition key_num (k : pykey) : option Z :=
  match k with
  | KBool b => Some (if b then 1 else 0)%Z
  | KInt z => Some z
  | _ => None
  end.

Definition key_eqb (a b : pykey) : bool :=
  match a, b with
  | KNone, KNone => true
  | KStr s, KStr t => bool_decide (s = t)
  | _, _ =>
      match key_num a, key_num b with
      | Some x, Some y => bool_decide (x = y)
      | _, _ => false
      end
  end.

Fixpoint pydict_set {V} (k : pykey) (v : V) (d : list (pykey * V))
  : list (pykey * V) :=
  match d with
  | [] => [(k, v)]
  | (k', v') :: d' =>
      if key_eqb k' k then (k', v) :: d' else (k', v') :: pydict_set k v d'
  end.

(** [str(k)], as the [%s] conversion prints a key. *)
Definition py_str (k : pykey) : string :=
  match k with
  | KNone => "None"
  | KBool true => "True"
  | KBool false => "False"
  | KInt z => pretty z
  | KStr s => s
  end.

(** ** djerba/simple/reader.py *)

Module Reader.

Definition GENE_METRICS_KEY := "gene_metrics".
Definition GENE_NAME_KEY := "Gene".
Definition ITEMS_KEY := "items".
Definition PROPERTIES_KEY := "properties".
Definition SAMPLE_INFO_KEY := "sample_info".

(** The attributes of a [reader] object. *)
Record reader : Type := {
  permitted_gene_attributes : gset string;
  permitted_sample_attributes : gset string;
  gene_metrics : list (pykey * json);  (* gene name -> dictionary of metrics *)
  sample_info : json                   (* attribute name -> value *)
}.

(** [set(obj[k1][k2]...[kn].keys())] *)
Definition keys_at (obj : json) (path : list string) : result (gset string) :=
  (o <-? for_each path (fun k o => py_getitem o k) obj;
   ks <-? py_keys o;
   Ok (list_to_set ks))%res.

(** [reader.__init__], from the parsed contents of the schema file. *)
Definition init (config schema : json) : result reader :=
  (sets <-? except_KeyError
      (g <-? keys_at schema
               [PROPERTIES_KEY; GENE_METRICS_KEY; ITEMS_KEY; PROPERTIES_KEY];
       s <-? keys_at schema [PROPERTIES_KEY; SAMPLE_INFO_KEY; PROPERTIES_KEY];
       Ok (g, s))
      (RuntimeError "Bad schema format; could not find expected keys");
   Ok {| permitted_gene_attributes := sets.1;
         permitted_sample_attributes := sets.2;
         gene_metrics := [];
         sample_info := JObj [] |})%res.

Definition gene_inconsistent_msg (gene_name : pykey) : string :=
  "Gene " +:+ py_str gene_name +:+ " has inconsistent attribute names".

Definition gene_undefined_msg (name : string) (gene_name : pykey) : string :=
  "Attribute " +:+ name +:+ " on gene " +:+ py_str gene_name
    +:+ " is not defined in schema".

Definition sample_undefined_msg (name : string) : string :=
  "Attribute " +:+ name +:+ " in sample_info is not defined in schema".

(** One iteration of the loop of [find_gene_attribute_errors]; the loop
    state is [(expected_names, errors)].  The inner loop visits the set
    [names] in the order of [elements]. *)
Definition gene_step (self : reader) (entry : pykey * json)
    (st : gset string * list string) : result (gset string * list string) :=
  let '(gene_name, gene) := entry in
  let '(expected_names, errors) := st in
  (ks <-? py_keys gene;
   let names : gset string := list_to_set ks in
   let '(expected_names, errors) :=
     if decide (size expected_names = 0) then (names, errors)
     else if decide (names ≠ expected_names)
          then (expected_names, errors ++ [gene_inconsistent_msg gene_name])
          else (expected_names, errors) in
   let errors :=
     foldl (fun errs name =>
              if decide (name ∉ permitted_gene_attributes self)
              then errs ++ [gene_undefined_msg name gene_name]
              else errs)
           errors (elements names) in
   Ok (expected_names, errors))%res.

Definition find_gene_attribute_errors (self : reader) : result (list string) :=
  (st <-? for_each (gene_metrics self) (gene_step self) (∅, []);
   Ok st.2)%res.

Definition find_sample_attribute_errors (self : reader) : result (list string) :=
  (names <-? py_keys (sample_info self);
   Ok (foldl (fun errors name =>
                if decide (name ∉ permitted_gene_attributes self)
                then errors ++ [sample_undefined_msg name]
                else errors)
             [] names))%res.

Definition validate_with_schema (self : reader) : result bool :=
  (gene_errors <-? find_gene_attribute_errors self;
   sample_errors <-? find_sample_attribute_errors self;
   Ok (if decide (length gene_errors = 0 ∧ length sample_errors = 0)
       then true else false))%res.

(** [self.gene_metrics[gene.get(self.GENE_NAME_KEY)] = gene] *)
Definition store_gene (gene : json) (gm : list (pykey * json))
  : result (list (pykey * json)) :=
  (name <-? py_get gene GENE_NAME_KEY;
   k <-? to_key name;
   Ok (pydict_set k gene gm))%res.

(** [json_reader.__init__] *)
Definition json_reader_init (config schema : json) : result reader :=
  (self <-? init config schema;
   genes <-? py_get config GENE_METRICS_KEY;
   gene_list <-? py_iter genes;
   gm <-? for_each gene_list store_gene (gene_metrics self);
   info <-? py_get config SAMPLE_INFO_KEY;
   let self := {| permitted_gene_attributes := permitted_gene_attributes self;
                  permitted_sample_attributes := permitted_sample_attributes self;
                  gene_metrics := gm;
                  sample_info := info |} in
   _ <-? validate_with_schema self;
   Ok self)%res.

(** The shape of an entry of [gene_metrics] that the constructor of
    [json_reader] can store: a JSON object whose member [Gene], when it
    has one, is hashable. *)
Definition is_obj (v : json) : bool :=
  match v with
  | JObj _ => true
  | _ => false
  end.

Definition is_gene_record (v : json) : bool :=
  match v with
  | JObj d =>
      match to_key (default JNull (dict_get GENE_NAME_KEY d)) with
      | Ok _ => true
      | Err _ => false
      end
  | _ => false
  end.

(** A schema with the members [reader.__init__] looks up, and
    configurations to run the constructors on. *)
Definition example_schema : json :=
  JObj [("properties",
    JObj [("gene_metrics",
            JObj [("items",
              JObj [("properties",
                JObj [("Gene", JObj []); ("Chromosome", JObj [])])])]);
          ("sample_info",
            JObj [("properties",
              JObj [("purity", JObj []); ("ploidy", JObj [])])])])].

Definition example_genes : list json :=
  [JObj [("Gene", JStr "KRAS"); ("Chromosome", JStr "12p12.1")];
   JObj [("Gene", JStr "PIK3CA"); ("Copies", JInt 3)]].

Definition example_info : dict json := [("purity", JInt 1)].

Definition example_config : json :=
  JObj [("reader_class", JStr "json_reader");
        ("gene_metrics", JList example_genes);
        ("sample_info", JObj example_info)].

Definition example_reader : reader :=
  {| permitted_gene_attributes := {["Gene"; "Chromosome"]};
     permitted_sample_attributes := {["purity"; "ploidy"]};
     gene_metrics := [];
     sample_info := JObj example_info |}.

End Reader.

(** ** Configurations, report data and the plugin contract *)

(** A configuration section maps option names to values; a configuration
    (a [ConfigParser]) maps section names to sections, in file order.
    [ConfigParser]'s own normalisation of option names and values is not
    modelled. *)
Abbreviation section := (dict json).
Abbreviation config := (dict section).

Definition sections (c : config) : list string := dict_keys c.

(** The dict returned by the core extractor and completed by [main.extract]:
    the member ['plugins'] is the field [plugins], the other members are
    [core_fields]. *)
Record report_data : Type := {
  core_fields : dict json;
  plugins : dict json
}.

(** What is written to an output file. *)
Inductive payload : Type :=
| PConfig (c : config)        (* config_out.write(out_file) *)
| PJson (d : report_data)     (* out_file.write(json.dumps(data)) *)
| PHtml (html : string).      (* out_file.write(html) *)

(** The calls the orchestrator makes, in the order it makes them. *)
Inductive event : Type :=
| EvValidateOutput (path : string)
| EvReadIni (path : string)
| EvCoreConfigure
| EvCoreExtract
| EvCoreRender
| EvConstruct (identifier : string)
| EvConfigure (identifier : string)
| EvExtract (identifier : string)
| EvValidateData (identifier : string)
| EvRender (identifier : string)
| EvWrite (path : string) (content : payload).

Definition is_write (ev : event) : bool :=
  match ev with
  | EvWrite _ _ => true
  | _ => false
  end.

(** A step of a collaborator, over the state [W] of everything outside the
    orchestrator (the workspace, the file system, the plugins' own fields). *)
Definition action (W A : Type) : Type := W -> result A * W.

(** The plugin contract: the three methods of a plugin's [main] class. *)
Record plugin (W : Type) : Type := {
  p_configure : section -> action W section;
  p_extract : section -> action W json;
  p_render : json -> action W string
}.
Arguments p_configure {W}.
Arguments p_extract {W}.
Arguments p_render {W}.

(** A plugin object: [obj_id] is the object's identity. *)
Record instance (W : Type) : Type := {
  obj_id : nat;
  methods : plugin W
}.
Arguments obj_id {W}.
Arguments methods {W}.

(** The collaborators of [main] that are not among the sources. *)
Class Collaborators (W : Type) : Type := {
  (* path_validator *)
  validate_output_file : string -> action W unit;
  validate_input_file : string -> action W unit;
  (* ConfigParser().read(path) *)
  read_ini : string -> action W config;
  (* core_configurer(...).run(section) *)
  core_configurer_run : section -> action W section;
  (* core_extractor(...).run(config): the members of the data other than
     'plugins'; by the comment at the call site the result "includes an
     empty 'plugins' object" *)
  core_extractor_run : config -> action W (dict json);
  (* core_renderer(...).run(data) *)
  core_renderer_run : report_data -> action W (list string);
  (* json_validator.validate_data(plugin_data): the check against the shared
     schema, which raises when the data does not conform *)
  validate_data : json -> result unit;
  (* resolving and constructing the plugin named by an identifier *)
  construct_plugin : string -> action W (plugin W);
  (* open(path, 'w') and the write to it *)
  write_file : string -> payload -> action W unit
}.

(** ** The state of a run and the monad of the orchestrator *)

Record state (W : Type) : Type := {
  world : W;
  plugin_cache : gmap string (instance W);   (* of self.plugin_loader *)
  next_id : nat;
  trace : list event
}.
Arguments world {W}.
Arguments plugin_cache {W}.
Arguments next_id {W}.
Arguments trace {W}.

Definition M (W A : Type) : Type := state W -> result A * state W.

Definition ret {W A} (a : A) : M W A := fun s => (Ok a, s).

Definition raise {W A} (e : exn) : M W A := fun s => (Err e, s).

Definition bind {W A B} (m : M W A) (k : A -> M W B) : M W B :=
  fun s =>
    match m s with
    | (Ok a, s') => k a s'
    | (Err e, s') => (Err e, s')
    end.

Declare Scope run_scope.
Delimit Scope run_scope with run.
Notation "x <- m ;; k" := (bind m (fun x => k))
  (at level 100, m at next level, right associativity) : run_scope.
Notation "m ;; k" := (bind m (fun _ => k))
  (at level 100, right associativity) : run_scope.

Definition set_world {W} (w : W) (s : state W) : state W :=
  {| world := w; plugin_cache := plugin_cache s;
     next_id := next_id s; trace := trace s |}.

Definition emit {W} (ev : event) : M W unit :=
  fun s => (Ok tt, {| world := world s; plugin_cache := plugin_cache s;
                      next_id := next_id s; trace := trace s ++ [ev] |}).

Definition lift {W A} (f : action W A) : M W A :=
  fun s => let '(r, w) := f (world s) in (r, set_world w s).

(** A call to a collaborator, recorded in the trace when it starts. *)
Definition call {W A} (ev : event) (f : action W A) : M W A :=
  (emit ev;; lift f)%run.

Definition of_result {W A} (r : result A) : M W A := fun s => (r, s).

(** A loop [for x in xs: body] in the monad. *)
Fixpoint for_eachM {W A S} (xs : list A) (body : A -> S -> M W S) (acc : S)
  : M W S :=
  match xs with
  | [] => ret acc
  | x :: xs' => bind (body x acc) (for_eachM xs' body)
  end.

(** [sep.join(parts)] *)
Fixpoint join (sep : string) (parts : list string) : string :=
  match parts with
  | [] => ""
  | [x] => x
  | x :: rest => x +:+ sep +:+ join sep rest
  end.

Definition NL : string := String (Ascii.ascii_of_nat 10) EmptyString.

(** The truth value of an optional path argument: [None] and the empty
    string are false. *)
Definition path_given (p : option string) : option string :=
  match p with
  | Some s => if decide (s = "") then None else Some s
  | None => None
  end.

(** [c[name]] on a configuration *)
Definition config_getitem {W} (c : config) (name : string) : M W section :=
  match dict_get name c with
  | Some sec => ret sec
  | None => raise (KeyError name)
  end.

(** [[a, b] = l] *)
Definition unpack2 {W} (l : list string) : M W (string * string) :=
  match l with
  | [a; b] => ret (a, b)
  | _ => raise (ValueError "wrong number of values to unpack")
  end.

(** ** djerba/util/ini_fields.py *)

Module Ini.

(** The names the module binds and their values, in the order of the
    file: the section names, then the parameter names. *)
Definition bindings : dict string :=
  [("INPUTS", "inputs"); ("SEG", "seg"); ("SETTINGS", "settings");
   ("DISCOVERED", "discovered"); ("SAMPLE_META", "sample_meta");
   ("AMPL", "ampl"); ("BED_PATH", "bed_path");
   ("CANCER_TYPE", "cancer_type");
   ("CANCER_TYPE_DESCRIPTION", "cancer_type_description");
   ("CANCER_TYPE_DETAILED", "cancer_type_detailed");
   ("DATA_DIR", "data_dir"); ("ENSCON", "enscon"); ("ENTCON", "entcon");
   ("EXTRACTION_DIR", "extraction_dir"); ("FUS_FILE", "fusfile");
   ("GAIN", "gain"); ("GAMMA", "gamma"); ("GENE_BED", "genebed");
   ("GENE_LIST", "genelist"); ("GEP_FILE", "gepfile");
   ("GEP_REFERENCE", "gep_reference"); ("HTZD", "htzd"); ("HMZD", "hmzd");
   ("MAF_FILE", "maf_file"); ("MEAN_COVERAGE", "mean_coverage");
   ("METRICS_FILENAME", "metrics_filename");
   ("METRICS_SCHEMA", "metrics_schema");
   ("MIN_FUSION_READS", "min_fusion_reads");
   ("MUTATION_NONSYN", "mutation_nonsyn"); ("NORMAL_ID", "normalid");
   ("ONCO_LIST", "oncolist"); ("OUT_DIR", "out_dir"); ("PATIENT", "patient");
   ("PATIENT_ID", "patientid"); ("PCT_V7_ABOVE_80X", "pct_v7_above_80x");
   ("PROVENANCE", "provenance"); ("R_SCRIPT_DIR", "r_script_dir");
   ("REPORT_VERSION", "report_version");
   ("REQUIRE_COMPLETE", "require_complete");
   ("SAMPLE_ANATOMICAL_SITE", "sample_anatomical_site");
   ("SAMPLE_TYPE", "sample_type"); ("SEG_FILE", "segfile");
   ("SEQUENZA_FILE", "sequenza_file"); ("SEX", "sex");
   ("STUDY_ID", "studyid"); ("TCGA_CODE", "tcgacode");
   ("TCGA_DATA", "tcgadata"); ("TMBCOMP", "tmbcomp");
   ("TUMOUR_ID", "tumourid"); ("VALIDATE", "validate");
   ("WHIZBAM_URL", "whizbam_url")].

(** [ini.<name>]: the value the module binds to the name.  The module
    binds no other public name, and a reference to one raises. *)
Definition getattr (name : string) : result string :=
  match dict_get name bindings with
  | Some value => Ok value
  | None =>
      Err (AttributeError
             ("module 'djerba.util.ini_fields' has no attribute '"
              +:+ name +:+ "'"))
  end.

End Ini.

(** ** djerba/core/plugin_loader.py *)

Module PluginLoader.
Section Loader.
Context {W : Type} `{Collaborators W}.

(** Modelled from the spec: [plugin_loader.load], which is not among the
    sources.  "On first call for an identifier, resolves and constructs
    the plugin, caches it; subsequent calls for the same identifier return
    the cached instance"; it fails when the identifier does not name a
    known plugin. *)
Definition load (identifier : string) : M W (instance W) :=
  fun s =>
    match plugin_cache s !! identifier with
    | Some inst => (Ok inst, s)
    | None =>
        match construct_plugin identifier (world s) with
        | (Ok p, w) =>
            let inst := {| obj_id := next_id s; methods := p |} in
            (Ok inst,
             {| world := w;
                plugin_cache := <[identifier := inst]> (plugin_cache s);
                next_id := S (next_id s);
                trace := trace s ++ [EvConstruct identifier] |})
        | (Err e, w) => (Err e, set_world w s)
        end
    end.

End Loader.
End PluginLoader.

(** ** djerba/core/main.py *)

Module Main.
Section Orchestrator.
Context {W : Type} `{Collaborators W}.

Definition PLUGINS : string := "plugins".

(** The attributes [__init__] assigns to [self]. *)
Definition init_attributes : list string :=
  ["log_level"; "log_path"; "logger"; "json_validator"; "path_validator";
   "plugin_loader"].

(** The state of a fresh [main] object: its plugin loader has loaded
    nothing. *)
Definition init (w : W) : state W :=
  {| world := w; plugin_cache := ∅; next_id := 0; trace := [] |}.

(** [self.<name>] for a collaborator object: an attribute that
    [__init__] did not assign raises.  The class defines the methods and
    [PLUGINS] only, and its base class [logger], a logging helper that is
    not among the sources, is used for [get_logger] alone. *)
Definition self_attr (name : string) : M W unit :=
  if decide (name ∈ init_attributes) then ret tt
  else raise (AttributeError ("'main' object has no attribute '" +:+ name +:+ "'")).

(** [self.<validator>.validate_output_file(path)] when a path is given *)
Definition check_output (validator : string) (path : option string) : M W unit :=
  match path_given path with
  | Some p =>
      (self_attr validator;;
       call (EvValidateOutput p) (validate_output_file p))%run
  | None => ret tt
  end.

(** [with open(path, 'w') as out_file: ...] when a path is given *)
Definition write_output (path : option string) (content : payload) : M W unit :=
  match path_given path with
  | Some p => call (EvWrite p content) (write_file p content)
  | None => ret tt
  end.

Definition read_ini_path (ini_path : string) : M W config :=
  (self_attr "path_validator";;
   lift (validate_input_file ini_path);;
   call (EvReadIni ini_path) (read_ini ini_path))%run.

(** [ini.CORE], the name the loops of [configure] and [extract] compare
    each section name with. *)
Definition ini_CORE : M W string := of_result (Ini.getattr "CORE").

(** The body of the loop of [configure]: the test
    [section_name == ini.CORE] evaluates [ini.CORE] first. *)
Definition configure_section (config_in : config) (section_name : string)
    (config_out : config) : M W config :=
  (core <- ini_CORE;;
   if decide (section_name = core) then
     (sec <- config_getitem config_in section_name;;
      sec' <- call EvCoreConfigure (core_configurer_run sec);;
      ret (dict_set section_name sec' config_out))
   else
     (plugin_main <- PluginLoader.load section_name;;
      sec <- config_getitem config_in section_name;;
      sec' <- call (EvConfigure section_name)
                   (p_configure (methods plugin_main) sec);;
      ret (dict_set section_name sec' config_out)))%run.

(** The part of [configure] between the check of the output path and the
    write to it. *)
Definition configure_body (config_path_in : string) : M W config :=
  (config_in <- read_ini_path config_path_in;;
   (* TODO first read defaults, then overwrite *)
   let config_out := [] in
   for_eachM (sections config_in) (configure_section config_in) config_out)%run.

Definition configure (config_path_in : string) (config_path_out : option string)
  : M W config :=
  (check_output "validator" config_path_out;;
   config_out <- configure_body config_path_in;;
   write_output config_path_out (PConfig config_out);;
   ret config_out)%run.

(** The body of the loop of [extract]: the test
    [section_name != ini.CORE] evaluates [ini.CORE] first. *)
Definition extract_section (cfg : config) (section_name : string)
    (data : report_data) : M W report_data :=
  (core <- ini_CORE;;
   if decide (section_name ≠ core) then
     (plugin <- PluginLoader.load section_name;;
      sec <- config_getitem cfg section_name;;
      plugin_data <- call (EvExtract section_name)
                          (p_extract (methods plugin) sec);;
      emit (EvValidateData section_name);;
      of_result (validate_data plugin_data);;
      ret {| core_fields := core_fields data;
             plugins := dict_set section_name plugin_data (plugins data) |})
   else ret data)%run.

Definition extract_body (cfg : config) : M W report_data :=
  (core <- call EvCoreExtract (core_extractor_run cfg);;
   (* data includes an empty 'plugins' object *)
   let data := {| core_fields := core; plugins := [] |} in
   for_eachM (sections cfg) (extract_section cfg) data)%run.

Definition extract (cfg : config) (json_path : option string)
  : M W report_data :=
  (check_output "validator" json_path;;
   data <- extract_body cfg;;
   write_output json_path (PJson data);;
   ret data)%run.

(** The body of the loop of [render]. *)
Definition render_section (data : report_data) (plugin_name : string)
    (html_sections : list string) : M W (list string) :=
  (plugin <- PluginLoader.load plugin_name;;
   plugin_data <- match dict_get plugin_name (plugins data) with
                  | Some pd => ret pd
                  | None => raise (KeyError plugin_name)
                  end;;
   fragment <- call (EvRender plugin_name)
                    (p_render (methods plugin) plugin_data);;
   ret (html_sections ++ [fragment]))%run.

Definition render_body (data : report_data) : M W string :=
  (hf <- call EvCoreRender (core_renderer_run data);;
   pair <- unpack2 hf;;
   let '(header, footer) := pair in
   let html_sections := [header] in
   html_sections <- for_eachM (dict_keys (plugins data))
                              (render_section data) html_sections;;
   let html_sections := html_sections ++ [footer] in
   ret (join NL html_sections))%run.

Definition render (data : report_data) (html_path : option string)
  : M W string :=
  (check_output "path_validator" html_path;;
   html <- render_body data;;
   write_output html_path (PHtml html);;
   ret html)%run.

End Orchestrator.
End Main.

(** ** djerba/plugins/base.py and djerba/core/constants.py *)

Definition abind {W A B} (f : action W A) (k : A -> action W B) : action W B :=
  fun w =>
    match f w with
    | (Ok a, w') => k a w'
    | (Err e, w') => (Err e, w')
    end.

Definition aret {W A} (a : A) : action W A := fun w => (Ok a, w).

Declare Scope action_scope.
Delimit Scope action_scope with act.
Notation "x <- m ;; k" := (abind m (fun x => k))
  (at level 100, m at next level, right associativity) : action_scope.
Notation "m ;; k" := (abind m (fun _ => k))
  (at level 100, right associativity) : action_scope.

Module CoreConstants.

(** Modelled from the spec: the names of the two attribute parameters of
    [djerba.core.constants], "clinical" and "supplementary". *)
Definition CLINICAL : string := "clinical".
Definition SUPPLEMENTARY : string := "supplementary".

End CoreConstants.

Module PluginBase.

(** The fields of a [plugin_base] object that hold its parameter
    specification. *)
Record params : Type := {
  identifier : string;
  ini_required : gset string;
  ini_defaults : dict json
}.

(** Modelled from the spec: [plugin_base.__init__], which starts with no
    parameter registered. *)
Definition init (identifier : string) : params :=
  {| identifier := identifier; ini_required := ∅; ini_defaults := [] |}.

(** Modelled from the spec: [add_ini_required] registers a parameter as
    required. *)
Definition add_ini_required (key : string) (self : params) : params :=
  {| identifier := identifier self;
     ini_required := {[key]} ∪ ini_required self;
     ini_defaults := ini_defaults self |}.

(** Modelled from the spec: [set_ini_default] registers a parameter with
    its default value. *)
Definition set_ini_default (key : string) (value : json) (self : params)
  : params :=
  {| identifier := identifier self;
     ini_required := ini_required self;
     ini_defaults := dict_set key value (ini_defaults self) |}.

(** The other methods of [plugin_base], of the configuration wrapper and
    of the workspace that the demo1 plugin calls; none is among the
    sources. *)
Class Ops (W : Type) : Type := {
  wrapper : Type;
  apply_defaults : params -> section -> action W section;
  get_config_wrapper : params -> section -> action W wrapper;
  (* a wrapper method that updates the wrapper returns the updated one *)
  set_my_priorities : Z -> wrapper -> action W wrapper;
  get_config : wrapper -> action W section;
  get_my_priorities : wrapper -> action W json;
  get_my_attributes : wrapper -> action W json;
  (* self.workspace.write_string(name, content) *)
  write_string : string -> string -> action W unit;
  (* plugin_base.render(data): "validate against schema" *)
  base_render : params -> json -> action W unit
}.

End PluginBase.

(** ** djerba/plugins/demo1/plugin.py *)

Module Demo1.
Section Plugin.
Context {W : Type} `{PluginBase.Ops W}.
Import PluginBase.

Definition DEFAULT_CONFIG_PRIORITY : Z := 100.

Definition init (identifier : string) : params :=
  let self := PluginBase.init identifier in
  let self := add_ini_required "question" self in
  let self := set_ini_default CoreConstants.CLINICAL (JBool true) self in
  let self := set_ini_default CoreConstants.SUPPLEMENTARY (JBool false) self in
  let self := set_ini_default "dummy_file" JNull self in
  self.

Definition configure (self : params) (cfg : section) : action W section :=
  (cfg <- apply_defaults self cfg;;
   wrapper <- get_config_wrapper self cfg;;
   wrapper <- set_my_priorities DEFAULT_CONFIG_PRIORITY wrapper;;
   get_config wrapper)%act.

Definition KRAS : json :=
  JObj [("Gene", JStr "KRAS");
        ("Gene_URL", JStr "https://www.oncokb.org/gene/KRAS");
        ("Chromosome", JStr "12p12.1");
        ("Summary", JStr "KRAS, a GTPase which functions as an upstream regulator of the MAPK and PI3K pathways, is frequently mutated in various cancer types including pancreatic, colorectal and lung cancers.")].

Definition PIK3CA : json :=
  JObj [("Gene", JStr "PIK3CA");
        ("Gene_URL", JStr "https://www.oncokb.org/gene/PIK3CA");
        ("Chromosome", JStr "3q26.32");
        ("Summary", JStr "PIK3CA, the catalytic subunit of PI3-kinase, is frequently mutated in a diverse range of cancers including breast, endometrial and cervical cancers.")].

Definition extract (self : params) (cfg : section) : action W json :=
  (wrapper <- get_config_wrapper self cfg;;
   priorities <- get_my_priorities wrapper;;
   attributes <- get_my_attributes wrapper;;
   let data :=
     JObj [("plugin_name", JStr (identifier self +:+ " plugin"));
           ("priorities", priorities);
           ("attributes", attributes);
           ("merge_inputs",
             JObj [("gene_information_merger", JList [KRAS; PIK3CA])]);
           ("results", JObj [])] in
   let question := "What do you get if you multiply six by nine?" in
   write_string "question.txt" question;;
   aret data)%act.

Definition render (self : params) (data : json) : action W string :=
  (base_render self data;;  (* validate against schema *)
   aret "<h3>TODO demo1 plugin output goes here</h3>")%act.

(** The fragment [render] returns, and the data [extract] builds from
    the priorities and attributes the wrapper gives: names for the
    statements below. *)
Definition fragment : string := "<h3>TODO demo1 plugin output goes here</h3>".

Definition data_of (self : params) (priorities attributes : json) : json :=
  JObj [("plugin_name", JStr (identifier self +:+ " plugin"));
        ("priorities", priorities);
        ("attributes", attributes);
        ("merge_inputs",
          JObj [("gene_information_merger", JList [KRAS; PIK3CA])]);
        ("results", JObj [])].

(** The object as the orchestrator sees it. *)
Definition main (identifier : string) : plugin W :=
  let self := init identifier in
  {| p_configure := configure self;
     p_extract := extract self;
     p_render := render self |}.

End Plugin.
End Demo1.

(** ** A concrete world on which the model runs

    Stand-ins for the collaborators that are not among the sources, written
    after the specification's description of them, so that the definitions
    above can be evaluated on examples. *)

Module Fixture.

Record filesystem : Type := {
  ini_files : dict config;      (* the parsed INI files, by path *)
  unwritable : list string;     (* output paths that cannot be written *)
  workspace : dict string;      (* files of the workspace *)
  written : dict payload        (* output files *)
}.

Definition schema_keys : list string :=
  ["plugin_name"; "priorities"; "attributes"; "merge_inputs"; "results"].

(** The structural check of the validator: the top-level keys are there. *)
Definition conforms (data : json) : bool :=
  match data with
  | JObj d => forallb (fun k => bool_decide (is_Some (dict_get k d))) schema_keys
  | _ => false
  end.

Definition check_schema (data : json) : result unit :=
  if conforms data then Ok tt
  else Err (ValidationError "plugin data does not match the schema").

Definition fill_defaults (defaults : dict json) (sec : section) : section :=
  foldl (fun sec kv =>
           match dict_get kv.1 sec with
           | Some _ => sec
           | None => dict_set kv.1 kv.2 sec
           end) sec defaults.

Definition missing_required (required : list string) (sec : section)
  : option string :=
  List.find (fun k => is_null (default JNull (dict_get k sec))) required.

(** Modelled from the spec: the methods of [plugin_base] and of the
    configuration wrapper (section 4.3: [configure] "applies declared
    defaults for any absent default-classified parameter" and "fails with a
    Parameter Error naming the missing parameter"; [render] "performs a
    schema-conformance check"), and the workspace, which stores strings
    under names. *)
#[global] Instance ops : PluginBase.Ops filesystem := {|
  PluginBase.wrapper := section;
  PluginBase.apply_defaults := fun self sec w =>
    let sec := fill_defaults (PluginBase.ini_defaults self) sec in
    match missing_required (elements (PluginBase.ini_required self)) sec with
    | Some k => (Err (ParameterError k), w)
    | None => (Ok sec, w)
    end;
  PluginBase.get_config_wrapper := fun _ sec => aret sec;
  PluginBase.set_my_priorities := fun p wr =>
    aret (dict_set "render_priority" (JInt p)
           (dict_set "extract_priority" (JInt p)
             (dict_set "configure_priority" (JInt p) wr)));
  PluginBase.get_config := fun wr => aret wr;
  PluginBase.get_my_priorities := fun wr =>
    aret (JObj [("configure", default JNull (dict_get "configure_priority" wr));
                ("extract", default JNull (dict_get "extract_priority" wr));
                ("render", default JNull (dict_get "render_priority" wr))]);
  PluginBase.get_my_attributes := fun wr =>
    aret (JObj [("clinical", default JNull (dict_get "clinical" wr));
                ("supplementary", default JNull (dict_get "supplementary" wr))]);
  PluginBase.write_string := fun name content w =>
    (Ok tt, {| ini_files := ini_files w; unwritable := unwritable w;
               workspace := dict_set name content (workspace w);
               written := written w |});
  PluginBase.base_render := fun _ data w => (check_schema data, w)
|}.

(** A plugin whose extracted data lacks the member 'results'. *)
Definition broken : plugin filesystem :=
  {| p_configure := fun sec => aret sec;
     p_extract := fun _ =>
       aret (JObj [("plugin_name", JStr "broken plugin");
                   ("priorities", JObj []);
                   ("attributes", JObj []);
                   ("merge_inputs", JObj [])]);
     p_render := fun _ => aret "<p>broken</p>" |}.

(** A plugin that renders the name and data it is given, to tell
    fragments apart. *)
Definition echo (name : string) : plugin filesystem :=
  {| p_configure := fun sec => aret sec;
     p_extract := fun _ =>
       aret (JObj [("plugin_name", JStr name);
                   ("priorities", JObj []);
                   ("attributes", JObj []);
                   ("merge_inputs", JObj []);
                   ("results", JObj [])]);
     p_render := fun _ => aret ("<p>" +:+ name +:+ "</p>") |}.

(** Modelled from the spec: the collaborators of [main].  The path
    validator rejects the paths of [unwritable] and the input paths that
    are not in [ini_files]; the core handlers pass the core section on and
    give a fixed header and footer; the validator is the structural check
    of section 4.4; the registry knows the plugins named below and fails
    on any other identifier (section 4.2). *)
#[global] Instance collaborators : Collaborators filesystem := {|
  validate_output_file := fun path w =>
    (if bool_decide (path ∈ unwritable w)
     then Err (OSError ("cannot write " +:+ path)) else Ok tt, w);
  validate_input_file := fun path w =>
    (if bool_decide (is_Some (dict_get path (ini_files w)))
     then Ok tt else Err (OSError ("cannot read " +:+ path)), w);
  read_ini := fun path w => (Ok (default [] (dict_get path (ini_files w))), w);
  core_configurer_run := fun sec => aret sec;
  core_extractor_run := fun cfg =>
    aret [("core", JObj (default [] (dict_get "core" cfg)))];
  core_renderer_run := fun _ => aret ["<html>"; "</html>"];
  validate_data := check_schema;
  construct_plugin := fun name w =>
    if decide (name = "demo1") then (Ok (Demo1.main name), w)
    else if decide (name = "broken") then (Ok broken, w)
    else if decide (name = "echo1") then (Ok (echo name), w)
    else if decide (name = "echo2") then (Ok (echo name), w)
    else (Err (ImportError ("No module named djerba.plugins." +:+ name)), w);
  write_file := fun path content w =>
    (Ok tt, {| ini_files := ini_files w; unwritable := unwritable w;
               workspace := workspace w;
               written := dict_set path content (written w) |})
|}.

Definition demo1_section : section :=
  [("question", JStr "What is six times nine?")].

Definition core_section : section := [("author", JStr "A. Author")].

(** A configuration with a core section and the demo1 section. *)
Definition demo_config : config :=
  [("core", core_section); ("demo1", demo1_section)].

(** A configuration with one plugin section and no core section. *)
Definition plugin_only_config : config := [("demo1", demo1_section)].

(** A configuration with three plugin sections around the core section. *)
Definition ordered_config : config :=
  [("echo2", []); ("core", core_section); ("demo1", demo1_section);
   ("echo1", [])].

(** A configuration whose second plugin extracts data without 'results'. *)
Definition broken_config : config :=
  [("core", core_section); ("echo1", []); ("broken", []); ("echo2", [])].

Definition valid_data (name : string) : json :=
  JObj [("plugin_name", JStr name); ("priorities", JObj []);
        ("attributes", JObj []); ("merge_inputs", JObj []);
        ("results", JObj [])].

(** Report data with three plugins. *)
Definition ordered_data : report_data :=
  {| core_fields := [("core", JObj core_section)];
     plugins := [("echo2", valid_data "echo2"); ("demo1", valid_data "demo1");
                 ("echo1", valid_data "echo1")] |}.

(** Report data in which the data of the second of three plugins has lost
    every member but its name. *)
Definition corrupt_data : report_data :=
  {| core_fields := [("core", JObj core_section)];
     plugins := [("echo2", valid_data "echo2");
                 ("demo1", JObj [("plugin_name", JStr "demo1")]);
                 ("echo1", valid_data "echo1")] |}.

Definition w0 : filesystem :=
  {| ini_files := [("config.ini", demo_config);
                   ("empty.ini", []);
                   ("plugin_only.ini", plugin_only_config);
                   ("ordered.ini", ordered_config);
                   ("broken.ini", broken_config);
                   ("missing.ini", [("core", core_section); ("demo1", [])])];
     unwritable := ["/nowhere/out"];
     workspace := [];
     written := [] |}.

Definition s0 : state filesystem := Main.init w0.

End Fixture.

(** ** Vocabulary of the properties *)

(** The events by which the orchestrator constructs the plugin [identifier],
    and their number in a trace. *)
Definition is_construct (identifier : string) (ev : event) : bool :=
  match ev with
  | EvConstruct identifier' => bool_decide (identifier' = identifier)
  | _ => false
  end.

Definition constructions (identifier : string) (t : list event) : nat :=
  length (List.filter (is_construct identifier) t).

(** The events of the computation proper: neither the check of an output
    path nor a write to one. *)
Definition is_work (ev : event) : bool :=
  match ev with
  | EvValidateOutput _ | EvWrite _ _ => false
  | _ => true
  end.

Definition any_event (ev : event) : bool := true.

Definition no_write (ev : event) : bool := negb (is_write ev).

(** The writes to output files recorded in a trace. *)
Definition writes (t : list event) : list event := List.filter is_write t.

(** The exception raised by a reference to [self.validator]. *)
Definition no_validator : exn :=
  AttributeError "'main' object has no attribute 'validator'".

(** The exception raised by a reference to [ini.CORE]. *)
Definition no_core : exn :=
  AttributeError "module 'djerba.util.ini_fields' has no attribute 'CORE'".

(** The calls that concern a plugin: its construction, its three methods
    and the validation of its data. *)
Definition is_plugin_event (ev : event) : bool :=
  match ev with
  | EvConstruct _ | EvConfigure _ | EvExtract _ | EvValidateData _
  | EvRender _ => true
  | _ => false
  end.

Definition no_plugin_event (ev : event) : bool := negb (is_plugin_event ev).

(** The state after a call to a collaborator that left the world [w]. *)
Definition after_call {W} (ev : event) (w : W) (s : state W) : state W :=
  {| world := w; plugin_cache := plugin_cache s;
     next_id := next_id s; trace := trace s ++ [ev] |}.

(** The document the specification describes:
    [header + "\n" + fragment_1 + "\n" + ... + fragment_k + "\n" + footer]. *)
Definition document (header : string) (fragments : list string) (footer : string)
  : string :=
  header +:+ NL +:+ foldr (fun f rest => f +:+ NL +:+ rest) footer fragments.

Section Vocabulary.
Context {W : Type} `{Collaborators W}.

(** [m] adds to the trace only events that satisfy [P], and keeps every
    plugin of the loader's cache without constructing it again. *)
Definition emits {A} (P : event -> bool) (m : M W A) : Prop :=
  ∀ s r s', m s = (r, s') ->
    ∃ evs, trace s' = trace s ++ evs
           ∧ forallb P evs = true
           ∧ ∀ id inst, plugin_cache s !! id = Some inst ->
               plugin_cache s' !! id = Some inst
               ∧ constructions id evs = 0.

(** A state reached from [s] by any sequence of loads, of phase calls
    and of iterations of their loops, after the same [main] object was in
    state [s]. *)
Inductive later (s : state W) : state W -> Prop :=
| later_refl : later s s
| later_load s1 id r s2 :
    later s s1 -> PluginLoader.load id s1 = (r, s2) -> later s s2
| later_configure s1 path_in path_out r s2 :
    later s s1 -> Main.configure path_in path_out s1 = (r, s2) -> later s s2
| later_extract s1 cfg path r s2 :
    later s s1 -> Main.extract cfg path s1 = (r, s2) -> later s s2
| later_render s1 data path r s2 :
    later s s1 -> Main.render data path s1 = (r, s2) -> later s s2
| later_configure_section s1 cfg name acc r s2 :
    later s s1 -> Main.configure_section cfg name acc s1 = (r, s2) -> later s s2
| later_extract_section s1 cfg name acc r s2 :
    later s s1 -> Main.extract_section cfg name acc s1 = (r, s2) -> later s s2
| later_render_section s1 data name acc r s2 :
    later s s1 -> Main.render_section data name acc s1 = (r, s2) -> later s s2.

(** The fragments of the plugins [names] of [data]: each is what the
    [render] method of the plugin loaded for the name returns on the
    plugin's data, the plugins being taken in the order of [names]. *)
Inductive rendered (data : report_data)
  : list string -> state W -> list string -> state W -> Prop :=
| rendered_nil s : rendered data [] s [] s
| rendered_cons name names s plugin s1 pd frag w2 frags s3 :
    PluginLoader.load name s = (Ok plugin, s1) ->
    dict_get name (plugins data) = Some pd ->
    p_render (methods plugin) pd (world s1) = (Ok frag, w2) ->
    rendered data names
      {| world := w2; plugin_cache := plugin_cache s1;
         next_id := next_id s1; trace := trace s1 ++ [EvRender name] |}
      frags s3 ->
    rendered data (name :: names) s (frag :: frags) s3.

End Vocabulary.

(** ** Python equality and dictionaries keyed by hashable values *)




(** ** djerba/simple/reader.py, continued *)

Module ReaderUpdate.
Section Update.

(** Python's [str] on a JSON value, which the error messages print. *)
Variable str_of : json -> string.

Import Reader.








End Update.
End ReaderUpdate.

(** ** Vocabulary of the properties of the reader *)





(** The class of a key under Python's [==]: equal keys, and only they,
    have the same class. *)
Definition key_norm (k : pykey) : option (Z + string) :=
  match k with
  | KNone => None
  | KBool b => Some (inl (if b then 1 else 0)%Z)
  | KInt z => Some (inl z)
  | KStr s => Some (inr s)
  end.






(** ** djerba/simple/reader.py: reader_factory *)

Module ReaderFactory.
Section Factory.

(** [open(schema_path)] and [json.loads] of what is read, with which the
    constructor of [reader] starts. *)
Variable load_schema : json -> result json.


(** What the global names of the module are bound to: the module [json],
    the three classes, and the names the interpreter binds in every
    module, whose values cannot be called. *)
Inductive global : Type :=
| GModule
| GReader
| GReaderFactory
| GJsonReader
| GValue.






End Factory.
End ReaderFactory.

(** * Properties *)

(** Decide a closed decidable proposition by evaluation. *)
Ltac by_decide :=
  match goal with
  | |- ?P => apply (bool_decide_unpack P); vm_compute; exact I
  end.

(** ** Loops and dictionaries *)

(** A loop that appends a message for each element failing a test collects
    the messages of the failing elements, in order. *)
Lemma foldl_append_if {A B} (P : A -> Prop) `{!∀ x, Decision (P x)}
    (msg : A -> B) (xs : list A) (acc : list B) :
  foldl (fun errs x => if decide (P x) then errs ++ [msg x] else errs) acc xs
  = acc ++ (msg <$> filter P xs).
Proof.
  revert acc; induction xs as [|x xs IH]; intros acc; simpl.
  - by rewrite app_nil_r.
  - rewrite IH, filter_cons. destruct (decide (P x)); simpl; [|done].
    by rewrite <- app_assoc.
Qed.

Lemma dict_get_set_eq {V} (k : string) (v : V) (d : dict V) :
  dict_get k (dict_set k v d) = Some v.
Proof.
  induction d as [|[k' v'] d IH]; simpl.
  - by rewrite decide_True.
  - destruct (decide (k' = k)) as [->|Hne]; simpl.
    + by rewrite decide_True.
    + by rewrite decide_False.
Qed.

Lemma dict_get_set_ne {V} (k k0 : string) (v : V) (d : dict V) :
  k ≠ k0 -> dict_get k0 (dict_set k v d) = dict_get k0 d.
Proof.
  intros Hne. induction d as [|[k' v'] d IH]; simpl.
  - by rewrite decide_False.
  - destruct (decide (k' = k)) as [->|Hne']; simpl.
    + by rewrite !decide_False.
    + destruct (decide (k' = k0)); [done|apply IH].
Qed.

(** Assignment to a new key appends it; assignment to an existing key leaves
    the keys as they are. *)
Lemma dict_keys_set_new {V} (k : string) (v : V) (d : dict V) :
  k ∉ dict_keys d -> dict_keys (dict_set k v d) = dict_keys d ++ [k].
Proof.
  unfold dict_keys. induction d as [|[k' v'] d IH]; simpl; intros Hk; [done|].
  apply not_elem_of_cons in Hk as [Hne Hk].
  rewrite decide_False by done. simpl. f_equal. by apply IH.
Qed.

Lemma dict_keys_set_old {V} (k : string) (v : V) (d : dict V) :
  k ∈ dict_keys d -> dict_keys (dict_set k v d) = dict_keys d.
Proof.
  unfold dict_keys. induction d as [|[k' v'] d IH]; simpl; intros Hk.
  - by apply elem_of_nil in Hk.
  - destruct (decide (k' = k)) as [->|Hne]; simpl; [done|].
    apply elem_of_cons in Hk as [->|Hk]; [done|]. f_equal. by apply IH.
Qed.

(** The values of a dictionary after an assignment are the new value and
    values it had before. *)
Lemma dict_set_values {V} (P : V -> Prop) (k : string) (v : V) (d : dict V) :
  P v -> Forall (fun kv => P kv.2) d -> Forall (fun kv => P kv.2) (dict_set k v d).
Proof.
  intros Hv. induction 1 as [|[k' v'] d' Hx Hd IH]; simpl.
  - by repeat constructor.
  - destruct (decide (k' = k)); constructor; auto.
Qed.

Lemma pydict_set_values {V} (P : V -> Prop) k v (d : list (pykey * V)) :
  P v -> Forall (fun kv => P kv.2) d -> Forall (fun kv => P kv.2) (pydict_set k v d).
Proof.
  intros Hv. induction 1 as [|[k' v'] d' Hx Hd IH]; simpl.
  - by repeat constructor.
  - destruct (key_eqb k' k); constructor; auto.
Qed.

(** ** The simple reader *)

Module ReaderProps.
Import Reader.

Lemma sample_errors_eq (self : reader) (info : dict json) :
  sample_info self = JObj info ->
  find_sample_attribute_errors self
  = Ok (sample_undefined_msg <$>
          filter (fun name => name ∉ permitted_gene_attributes self)
                 (dict_keys info)).
Proof.
  intros Hinfo. unfold find_sample_attribute_errors. rewrite Hinfo. simpl.
  by rewrite foldl_append_if.
Qed.

(** C9.  [find_sample_attribute_errors] tests each name of [sample_info]
    against the permitted gene attributes and never against the permitted
    sample attributes: its result is one message per name outside the
    gene attribute set, so a name that the schema permits for samples but
    not for genes makes the error list non-empty. *)
Theorem sample_attributes_checked_against_gene_set
    (self : reader) (info : dict json) (name : string) :
  sample_info self = JObj info ->
  name ∈ dict_keys info ->
  name ∈ permitted_sample_attributes self ->
  name ∉ permitted_gene_attributes self ->
  find_sample_attribute_errors self
  = Ok (sample_undefined_msg <$>
          filter (fun n => n ∉ permitted_gene_attributes self) (dict_keys info))
  ∧ ∃ errors, find_sample_attribute_errors self = Ok errors
              ∧ sample_undefined_msg name ∈ errors ∧ errors ≠ [].
Proof.
  intros Hinfo Hin _ Hgene.
  pose proof (sample_errors_eq self info Hinfo) as Heq.
  split; [done|]. eexists; split; [exact Heq|].
  assert (sample_undefined_msg name ∈
            sample_undefined_msg <$>
              filter (fun n => n ∉ permitted_gene_attributes self) (dict_keys info))
    as Hmem.
  { apply list_elem_of_fmap. exists name. split; [done|].
    by apply list_elem_of_filter. }
  split; [done|]. intros Hnil. rewrite Hnil in Hmem.
  by apply not_elem_of_nil in Hmem.
Qed.

Lemma sample_attributes_checked_against_gene_set_witness :
  ∃ errors, find_sample_attribute_errors example_reader = Ok errors
            ∧ sample_undefined_msg "purity" ∈ errors ∧ errors ≠ [].
Proof.
  refine (proj2 (sample_attributes_checked_against_gene_set
                   example_reader example_info "purity" eq_refl _ _ _)).
  - apply list_elem_of_here.
  - by_decide.
  - by_decide.
Defined.

Lemma store_genes_ok (genes : list json) (gm : list (pykey * json)) :
  Forall (fun g => is_gene_record g = true) genes ->
  Forall (fun kv => is_obj kv.2 = true) gm ->
  ∃ gm', for_each genes store_gene gm = Ok gm'
         ∧ Forall (fun kv => is_obj kv.2 = true) gm'.
Proof.
  intros Hg. revert gm.
  induction Hg as [|g genes Hrec _ IH]; intros gm Hgm; simpl; [eauto|].
  destruct g as [| | | | |d]; try discriminate Hrec.
  unfold store_gene at 1. simpl in *.
  destruct (to_key (default JNull (dict_get GENE_NAME_KEY d))) as [k|]; [|done].
  simpl. apply IH. by apply (pydict_set_values (fun v => is_obj v = true)).
Qed.

Lemma gene_step_ok (self : reader) (entry : pykey * json) st :
  is_obj entry.2 = true -> ∃ st', gene_step self entry st = Ok st'.
Proof.
  destruct entry as [k g], st as [ex errs]; simpl. intros Hg.
  destruct g; try discriminate Hg. unfold gene_step; simpl.
  repeat case_decide; eauto.
Qed.

Lemma find_gene_attribute_errors_ok (self : reader) :
  Forall (fun kv => is_obj kv.2 = true) (gene_metrics self) ->
  ∃ errors, find_gene_attribute_errors self = Ok errors.
Proof.
  unfold find_gene_attribute_errors. intros Hgm.
  generalize (∅ : gset string, [] : list string).
  induction Hgm as [|entry gm Hx _ IH]; intros st; simpl; [eauto|].
  destruct (gene_step_ok self entry st Hx) as [st' ->]. simpl. apply IH.
Qed.

Lemma validate_with_schema_ok (self : reader) (info : dict json) :
  Forall (fun kv => is_obj kv.2 = true) (gene_metrics self) ->
  sample_info self = JObj info ->
  ∃ b, validate_with_schema self = Ok b.
Proof.
  intros Hg Hs. unfold validate_with_schema.
  destruct (find_gene_attribute_errors_ok self Hg) as [ge ->]. simpl.
  rewrite (sample_errors_eq self info Hs). simpl. eauto.
Qed.

(** C10, as stated, fails: a configuration without the member
    [gene_metrics] makes the constructor raise, although the schema is
    well formed ([reader.__init__] succeeds on it). *)
Lemma json_reader_init_raises_without_genes :
  (∃ self0, init (JObj [("reader_class", JStr "json_reader")]) example_schema
            = Ok self0)
  ∧ json_reader_init (JObj [("reader_class", JStr "json_reader")]) example_schema
    = Err (TypeError "object is not iterable").
Proof. split; [eexists|]; reflexivity. Qed.

(** C10, amended.  For a well-formed schema and a configuration whose
    [gene_metrics] is a list of objects with a hashable (or no) [Gene]
    member and whose [sample_info] is an object, the constructor of
    [json_reader] returns the reader holding that data, whatever boolean
    [validate_with_schema] returns on it: the result of the call is
    discarded. *)
Theorem json_reader_init_discards_validation
    (config schema : json) (self0 : reader)
    (genes : list json) (info : dict json) :
  init config schema = Ok self0 ->
  py_get config GENE_METRICS_KEY = Ok (JList genes) ->
  Forall (fun g => is_gene_record g = true) genes ->
  py_get config SAMPLE_INFO_KEY = Ok (JObj info) ->
  ∃ self b,
    json_reader_init config schema = Ok self
    ∧ validate_with_schema self = Ok b
    ∧ sample_info self = JObj info
    ∧ for_each genes store_gene [] = Ok (gene_metrics self)
    ∧ permitted_gene_attributes self = permitted_gene_attributes self0
    ∧ permitted_sample_attributes self = permitted_sample_attributes self0.
Proof.
  intros Hinit Hgenes Hrec Hinfo.
  assert (gene_metrics self0 = []) as Hgm0.
  { unfold init in Hinit.
    destruct (except_KeyError _ _) as [sets|]; [|done]. simpl in Hinit.
    by injection Hinit as <-. }
  destruct (store_genes_ok genes [] Hrec) as (gm & Hloop & Hgm); [constructor|].
  set (self := {| permitted_gene_attributes := permitted_gene_attributes self0;
                  permitted_sample_attributes := permitted_sample_attributes self0;
                  gene_metrics := gm; sample_info := JObj info |}).
  destruct (validate_with_schema_ok self info Hgm eq_refl) as [b Hb].
  exists self, b. unfold json_reader_init.
  rewrite Hinit. simpl. rewrite Hgenes. simpl. rewrite Hgm0, Hloop. simpl.
  rewrite Hinfo. simpl. fold self. rewrite Hb. simpl. done.
Qed.

(** On the example configuration the constructor succeeds although the
    validation of the reader it returns gives [False]. *)
Lemma json_reader_init_discards_validation_witness :
  ∃ self, json_reader_init example_config example_schema = Ok self
          ∧ validate_with_schema self = Ok false.
Proof.
  destruct (json_reader_init_discards_validation
              example_config example_schema
              {| permitted_gene_attributes := {["Gene"; "Chromosome"]};
                 permitted_sample_attributes := {["purity"; "ploidy"]};
                 gene_metrics := []; sample_info := JObj [] |}
              example_genes example_info)
    as (self & b & Hinit & _).
  - reflexivity.
  - reflexivity.
  - repeat constructor.
  - reflexivity.
  - exists self. split; [exact Hinit|].
    vm_compute in Hinit. injection Hinit as <-. reflexivity.
Defined.

End ReaderProps.

(** ** The monad of the orchestrator *)

Section Monad.
Context {W : Type} `{Collaborators W}.

Lemma bind_Ok {A B} (m : M W A) (k : A -> M W B) s a s1 :
  m s = (Ok a, s1) -> bind m k s = k a s1.
Proof. unfold bind. by intros ->. Qed.

Lemma bind_Err {A B} (m : M W A) (k : A -> M W B) s e s1 :
  m s = (Err e, s1) -> bind m k s = (Err e, s1).
Proof. unfold bind. by intros ->. Qed.

(** The result of a sequence: either its first part raises, or the second
    part runs from the state the first part reaches. *)
Lemma bind_inv {A B} (m : M W A) (k : A -> M W B) s r s2 :
  bind m k s = (r, s2) ->
  (∃ e, m s = (Err e, s2) ∧ r = Err e)
  ∨ (∃ a s1, m s = (Ok a, s1) ∧ k a s1 = (r, s2)).
Proof.
  unfold bind. destruct (m s) as [[a|e] s1]; intros Hk.
  - right. eauto.
  - left. injection Hk as <- <-. eauto.
Qed.

Lemma bind_Ok_inv {A B} (m : M W A) (k : A -> M W B) s b s2 :
  bind m k s = (Ok b, s2) ->
  ∃ a s1, m s = (Ok a, s1) ∧ k a s1 = (Ok b, s2).
Proof.
  intros Hb. apply bind_inv in Hb as [(e & _ & [=])|Hb]. done.
Qed.

(** A loop over [xs ++ ys] is the loop over [xs] followed by the loop over
    [ys]; an iteration that raises ends it. *)
Lemma for_eachM_app {A S} (xs ys : list A) (body : A -> S -> M W S) acc s :
  for_eachM (xs ++ ys) body acc s
  = bind (for_eachM xs body acc) (for_eachM ys body) s.
Proof.
  revert acc s. induction xs as [|x xs IH]; intros acc s; [reflexivity|].
  simpl. unfold bind in *. destruct (body x acc s) as [[a|e] s1]; [|done].
  by rewrite IH.
Qed.

(** Fail fast: when the iterations before [x] succeed and the iteration
    for [x] raises, the loop raises that exception in the state the
    iteration reached, and no later iteration runs. *)
Lemma for_eachM_abort {A S} (pre post : list A) (x : A)
    (body : A -> S -> M W S) acc s acc1 s1 e s2 :
  for_eachM pre body acc s = (Ok acc1, s1) ->
  body x acc1 s1 = (Err e, s2) ->
  for_eachM (pre ++ x :: post) body acc s = (Err e, s2).
Proof.
  intros Hpre Hx. rewrite for_eachM_app. rewrite (bind_Ok _ _ _ _ _ Hpre).
  simpl. by rewrite (bind_Err _ _ _ _ _ Hx).
Qed.

(** A loop whose body raises at once ends in its first iteration. *)
Lemma for_eachM_raises {A S} (xs : list A) (body : A -> S -> M W S) acc s e :
  xs ≠ [] ->
  (∀ x acc s, body x acc s = (Err e, s)) ->
  for_eachM xs body acc s = (Err e, s).
Proof.
  destruct xs as [|x xs]; [done|]. intros _ Hbody. simpl.
  apply bind_Err, Hbody.
Qed.

Lemma call_eq {A} ev (f : action W A) (s : state W) :
  call ev f s = (let '(r, w) := f (world s) in (r, after_call ev w s)).
Proof.
  unfold call, bind, emit, lift, set_world, after_call. simpl.
  by destruct (f (world s)).
Qed.
End Monad.

(** ** What a computation adds to the trace and keeps in the cache *)

Lemma constructions_app id (t1 t2 : list event) :
  constructions id (t1 ++ t2) = constructions id t1 + constructions id t2.
Proof. unfold constructions. by rewrite List.filter_app, length_app. Qed.

Section Emits.
Context {W : Type} `{Collaborators W}.

Lemma emits_silent {A} (P : event -> bool) (m : M W A) :
  (∀ s r s', m s = (r, s') ->
     trace s' = trace s ∧ plugin_cache s' = plugin_cache s) ->
  emits P m.
Proof.
  intros Hm s r s' Hs. destruct (Hm _ _ _ Hs) as [Ht Hc].
  exists []. rewrite app_nil_r, Hc. auto.
Qed.

Lemma emits_ret {A} P (a : A) : emits (W:=W) P (ret a).
Proof. apply emits_silent. intros s r s' [= <- <-]. done. Qed.

Lemma emits_raise {A} P e : emits (W:=W) (A:=A) P (raise e).
Proof. apply emits_silent. intros s r s' [= <- <-]. done. Qed.

Lemma emits_of_result {A} P (x : result A) : emits (W:=W) P (of_result x).
Proof. apply emits_silent. intros s r s' [= <- <-]. done. Qed.

Lemma emits_lift {A} P (f : action W A) : emits P (lift f).
Proof.
  apply emits_silent. intros s r s'. unfold lift.
  destruct (f (world s)) as [r0 w]. intros [= <- <-]. done.
Qed.

Lemma emits_emit P ev :
  P ev = true -> (∀ id, is_construct id ev = false) -> emits (W:=W) P (emit ev).
Proof.
  intros HP Hc s r s' [= <- <-]. exists [ev]. simpl. rewrite HP.
  repeat split; auto. unfold constructions. simpl. by rewrite Hc.
Qed.

Lemma emits_bind {A B} P (m : M W A) (k : A -> M W B) :
  emits P m -> (∀ a, emits P (k a)) -> emits P (bind m k).
Proof.
  intros Hm Hk s r s2 Hb.
  apply bind_inv in Hb as [(e & Hs & ->)|(a & s1 & Hs & Hs1)].
  - exact (Hm _ _ _ Hs).
  - destruct (Hm _ _ _ Hs) as (evs1 & Ht1 & HP1 & Hc1).
    destruct (Hk a _ _ _ Hs1) as (evs2 & Ht2 & HP2 & Hc2).
    exists (evs1 ++ evs2). rewrite Ht2, Ht1, <- app_assoc, forallb_app, HP1, HP2.
    split; [done|]. split; [done|]. intros id inst Hid.
    destruct (Hc1 _ _ Hid) as [Hi Hn1]. destruct (Hc2 _ _ Hi) as [Hi2 Hn2].
    split; [done|]. rewrite constructions_app. lia.
Qed.

Lemma emits_weaken {A} (P Q : event -> bool) (m : M W A) :
  (∀ ev, P ev = true -> Q ev = true) -> emits P m -> emits Q m.
Proof.
  intros HPQ Hm s r s' Hs. destruct (Hm _ _ _ Hs) as (evs & Ht & HP & Hc).
  exists evs. split; [done|]. split; [|done].
  apply List.forallb_forall. intros ev Hin. apply HPQ.
  by apply (proj1 (List.forallb_forall _ _) HP).
Qed.

Lemma emits_call {A} P ev (f : action W A) :
  P ev = true -> (∀ id, is_construct id ev = false) -> emits P (call ev f).
Proof.
  intros. apply emits_bind; [by apply emits_emit|]. intros _. apply emits_lift.
Qed.

Lemma emits_for_eachM {A S} P (xs : list A) (body : A -> S -> M W S) acc :
  (∀ x a, emits P (body x a)) -> emits P (for_eachM xs body acc).
Proof.
  intros Hbody. revert acc. induction xs as [|x xs IH]; intros acc; simpl.
  - apply emits_ret.
  - apply emits_bind; auto.
Qed.

(** The loader constructs a plugin only when its cache does not hold the
    identifier. *)
Lemma emits_load P identifier :
  (∀ id, P (EvConstruct id) = true) -> emits P (PluginLoader.load identifier).
Proof.
  intros HP s r s'. unfold PluginLoader.load.
  destruct (plugin_cache s !! identifier) as [inst|] eqn:Hcache.
  - intros [= <- <-]. exists []. rewrite app_nil_r. auto.
  - destruct (construct_plugin identifier (world s)) as [[p|e] w].
    + intros [= <- <-]. exists [EvConstruct identifier]. simpl. rewrite HP.
      repeat split; auto.
      * rewrite lookup_insert_ne; [done|]. intros ->. congruence.
      * unfold constructions. simpl. rewrite bool_decide_eq_false_2; [done|].
        intros ->. congruence.
    + intros [= <- <-]. exists []. rewrite app_nil_r. auto.
Qed.
End Emits.

(** Decompose a computation of the orchestrator along its sequencing. *)
Ltac emits_step :=
  first
    [ apply emits_ret
    | apply emits_raise
    | apply emits_of_result
    | apply emits_lift
    | apply emits_call; [reflexivity | intros ?; reflexivity]
    | apply emits_emit; [reflexivity | intros ?; reflexivity]
    | apply emits_load; intros ?; reflexivity
    | apply emits_for_eachM; intros ? ?
    | apply emits_bind; [| intros ?] ].

Section MainEmits.
Context {W : Type} `{Collaborators W}.
Import Main.

Lemma emits_self_attr P name : emits (W:=W) P (self_attr name).
Proof. unfold self_attr. case_decide; emits_step. Qed.

Lemma emits_config_getitem P (c : config) name :
  emits (W:=W) P (config_getitem c name).
Proof. unfold config_getitem. destruct (dict_get name c); emits_step. Qed.

Lemma emits_unpack2 P l : emits (W:=W) P (unpack2 l).
Proof. unfold unpack2. destruct l as [|a [|b [|c l]]]; emits_step. Qed.

Lemma emits_read_ini_path path : emits is_work (read_ini_path path).
Proof.
  unfold read_ini_path. repeat first [apply emits_self_attr | emits_step].
Qed.

Lemma getattr_CORE : Ini.getattr "CORE" = Err no_core.
Proof. reflexivity. Qed.

(** The reference to [ini.CORE] raises, whatever the state. *)
Lemma ini_CORE_raises (s : state W) : ini_CORE s = (Err no_core, s).
Proof. unfold ini_CORE, of_result. by rewrite getattr_CORE. Qed.

(** So every iteration of the loops of [configure] and [extract] raises
    before it does anything else. *)
Lemma configure_section_raises cfg name acc (s : state W) :
  configure_section cfg name acc s = (Err no_core, s).
Proof. apply bind_Err, ini_CORE_raises. Qed.

Lemma extract_section_raises cfg name data (s : state W) :
  extract_section cfg name data s = (Err no_core, s).
Proof. apply bind_Err, ini_CORE_raises. Qed.

Lemma emits_configure_section P cfg name acc :
  emits P (configure_section cfg name acc).
Proof.
  apply emits_silent. intros s r s'. rewrite configure_section_raises.
  by intros [= <- <-].
Qed.

Lemma emits_extract_section P cfg name acc :
  emits P (extract_section cfg name acc).
Proof.
  apply emits_silent. intros s r s'. rewrite extract_section_raises.
  by intros [= <- <-].
Qed.

Lemma emits_render_section data name acc :
  emits is_work (render_section data name acc).
Proof.
  unfold render_section. emits_step; [emits_step|].
  emits_step; [destruct (dict_get name (plugins data)); emits_step|].
  repeat emits_step.
Qed.

Lemma emits_configure_body path : emits is_work (configure_body path).
Proof.
  unfold configure_body. emits_step; [apply emits_read_ini_path|].
  emits_step. apply emits_configure_section.
Qed.

Lemma emits_extract_body cfg : emits is_work (extract_body cfg).
Proof.
  unfold extract_body. emits_step; [emits_step|].
  emits_step. apply emits_extract_section.
Qed.

Lemma emits_render_body data : emits is_work (render_body data).
Proof.
  unfold render_body. emits_step; [emits_step|].
  apply emits_bind; [apply emits_unpack2|]. intros [header footer].
  emits_step; [|emits_step]. emits_step. apply emits_render_section.
Qed.

Lemma emits_check_output validator path :
  emits any_event (check_output validator path).
Proof.
  unfold check_output. destruct (path_given path); [|emits_step].
  emits_step; [apply emits_self_attr|emits_step].
Qed.

Lemma emits_write_output path content :
  emits any_event (write_output path content).
Proof. unfold write_output. destruct (path_given path); emits_step. Qed.

Lemma emits_any {A} (m : M W A) : emits is_work m -> emits any_event m.
Proof. by apply emits_weaken. Qed.

Lemma emits_configure path_in path_out :
  emits any_event (configure path_in path_out).
Proof.
  unfold configure. emits_step; [apply emits_check_output|].
  emits_step; [apply emits_any, emits_configure_body|].
  emits_step; [apply emits_write_output|emits_step].
Qed.

Lemma emits_extract cfg path : emits any_event (extract cfg path).
Proof.
  unfold extract. emits_step; [apply emits_check_output|].
  emits_step; [apply emits_any, emits_extract_body|].
  emits_step; [apply emits_write_output|emits_step].
Qed.

Lemma emits_render data path : emits any_event (render data path).
Proof.
  unfold render. emits_step; [apply emits_check_output|].
  emits_step; [apply emits_any, emits_render_body|].
  emits_step; [apply emits_write_output|emits_step].
Qed.
End MainEmits.

(** ** The plugin loader *)

Section LoaderProps.
Context {W : Type} `{Collaborators W}.

Lemma load_cached id (s : state W) inst :
  plugin_cache s !! id = Some inst -> PluginLoader.load id s = (Ok inst, s).
Proof. unfold PluginLoader.load. by intros ->. Qed.

Lemma load_caches id (s : state W) inst s1 :
  PluginLoader.load id s = (Ok inst, s1) -> plugin_cache s1 !! id = Some inst.
Proof.
  unfold PluginLoader.load.
  destruct (plugin_cache s !! id) as [inst0|] eqn:Hcache.
  - by intros [= <- <-].
  - destruct (construct_plugin id (world s)) as [[p|e] w]; [|done].
    intros [= <- <-]. simpl. apply lookup_insert_eq.
Qed.

Lemma emits_keeps {A} P (m : M W A) s r s' id inst :
  emits P m -> m s = (r, s') -> plugin_cache s !! id = Some inst ->
  plugin_cache s' !! id = Some inst
  ∧ constructions id (trace s') = constructions id (trace s).
Proof.
  intros Hm Hs Hid. destruct (Hm _ _ _ Hs) as (evs & Ht & _ & Hc).
  destruct (Hc _ _ Hid) as [Hi Hn]. split; [done|].
  rewrite Ht, constructions_app. lia.
Qed.

(** A plugin in the loader's cache stays there, and is not constructed
    again, whatever the object does afterwards. *)
Lemma later_keeps (s1 s2 : state W) id inst :
  later s1 s2 -> plugin_cache s1 !! id = Some inst ->
  plugin_cache s2 !! id = Some inst
  ∧ constructions id (trace s2) = constructions id (trace s1).
Proof.
  intros Hlater Hid.
  induction Hlater as
    [ | sa id' r sb _ [IHc IHn] Hstep
      | sa pin pout r sb _ [IHc IHn] Hstep
      | sa cfg path r sb _ [IHc IHn] Hstep
      | sa data path r sb _ [IHc IHn] Hstep
      | sa cfg name acc r sb _ [IHc IHn] Hstep
      | sa cfg name acc r sb _ [IHc IHn] Hstep
      | sa data name acc r sb _ [IHc IHn] Hstep ];
    [done|..]; rewrite <- IHn.
  - eapply (emits_keeps any_event); [|exact Hstep|exact IHc].
    apply emits_load. done.
  - eapply emits_keeps; [apply emits_configure|exact Hstep|exact IHc].
  - eapply emits_keeps; [apply emits_extract|exact Hstep|exact IHc].
  - eapply emits_keeps; [apply emits_render|exact Hstep|exact IHc].
  - eapply (emits_keeps any_event);
      [apply emits_configure_section|exact Hstep|exact IHc].
  - eapply (emits_keeps any_event);
      [apply emits_extract_section|exact Hstep|exact IHc].
  - eapply emits_keeps; [apply emits_render_section|exact Hstep|exact IHc].
Qed.

(** C7.  Once [load] has returned a plugin for an identifier, every later
    [load] of that identifier on the same [main] object -- at once, within
    a phase, or in a later configure, extract or render -- returns the same
    object, leaves the state as it is and constructs nothing. *)
Theorem load_returns_cached_instance
    (id : string) (s s1 s2 : state W) (inst : instance W) :
  PluginLoader.load id s = (Ok inst, s1) ->
  later s1 s2 ->
  PluginLoader.load id s2 = (Ok inst, s2)
  ∧ constructions id (trace s2) = constructions id (trace s1).
Proof.
  intros Hload Hlater. apply load_caches in Hload.
  destruct (later_keeps _ _ _ _ Hlater Hload) as [Hc Hn].
  split; [by apply load_cached|done].
Qed.
End LoaderProps.

Lemma load_returns_cached_instance_witness :
  ∃ inst s1 r s2 html s3,
    PluginLoader.load "demo1" Fixture.s0 = (Ok inst, s1)
    ∧ Main.extract Fixture.demo_config None s1 = (r, s2)
    ∧ Main.render Fixture.ordered_data None s2 = (Ok html, s3)
    ∧ PluginLoader.load "demo1" s3 = (Ok inst, s3)
    ∧ constructions "demo1" (trace s3) = 1.
Proof.
  destruct (PluginLoader.load "demo1" Fixture.s0) as [[inst|e] s1] eqn:Hload;
    [|by vm_compute in Hload].
  destruct (Main.extract Fixture.demo_config None s1) as [r s2] eqn:Hextract.
  destruct (Main.render Fixture.ordered_data None s2) as [[html|e] s3] eqn:Hrender.
  2:{ vm_compute in Hload. injection Hload as <- <-.
      vm_compute in Hextract. injection Hextract as <- <-.
      by vm_compute in Hrender. }
  exists inst, s1, r, s2, html, s3.
  destruct (load_returns_cached_instance "demo1" Fixture.s0 s1 s3 inst Hload)
    as [Hagain Hn].
  { eapply later_render; [|exact Hrender].
    eapply later_extract; [|exact Hextract]. apply later_refl. }
  repeat split; try done. rewrite Hn.
  vm_compute in Hload. injection Hload as <- <-. reflexivity.
Defined.

(** ** configure and extract *)

Section SectionLoops.
Context {W : Type} `{Collaborators W}.
Import Main.

(** The reference to [self.validator]: with an output path it raises,
    without one nothing is checked. *)
Lemma check_output_validator_eq path (s : state W) :
  check_output "validator" path s
  = (match path_given path with
     | Some _ => Err no_validator
     | None => Ok tt
     end, s).
Proof. unfold check_output. by destruct (path_given path). Qed.

(** What the loop of [configure] comes to: it returns for a configuration
    without sections and raises in its first iteration otherwise. *)
Lemma configure_body_eq path_in (s : state W) :
  configure_body path_in s
  = match read_ini_path path_in s with
    | (Ok cfg_in, s1) =>
        (if decide (sections cfg_in = []) then Ok [] else Err no_core, s1)
    | (Err e, s1) => (Err e, s1)
    end.
Proof.
  unfold configure_body, bind.
  destruct (read_ini_path path_in s) as [[cfg_in|e] s1]; [|done].
  case_decide as Hsec.
  - by rewrite Hsec.
  - apply for_eachM_raises; [done|]. intros. apply configure_section_raises.
Qed.

Lemma configure_eq path_in path_out (s : state W) :
  configure path_in path_out s
  = match path_given path_out with
    | Some _ => (Err no_validator, s)
    | None => configure_body path_in s
    end.
Proof.
  unfold configure, write_output, bind. rewrite check_output_validator_eq.
  destruct (path_given path_out); [done|].
  by destruct (configure_body path_in s) as [[cfg_out|e] s1].
Qed.

(** Likewise the loop of [extract]. *)
Lemma extract_body_eq cfg (s : state W) :
  extract_body cfg s
  = match core_extractor_run cfg (world s) with
    | (Ok core, w) =>
        (if decide (sections cfg = [])
         then Ok {| core_fields := core; plugins := [] |}
         else Err no_core, after_call EvCoreExtract w s)
    | (Err e, w) => (Err e, after_call EvCoreExtract w s)
    end.
Proof.
  unfold extract_body, bind. rewrite call_eq.
  destruct (core_extractor_run cfg (world s)) as [[core|e] w]; [|done].
  case_decide as Hsec.
  - by rewrite Hsec.
  - apply for_eachM_raises; [done|]. intros. apply extract_section_raises.
Qed.

Lemma extract_eq cfg path (s : state W) :
  extract cfg path s
  = match path_given path with
    | Some _ => (Err no_validator, s)
    | None => extract_body cfg s
    end.
Proof.
  unfold extract, write_output, bind. rewrite check_output_validator_eq.
  destruct (path_given path); [done|].
  by destruct (extract_body cfg s) as [[data|e] s1].
Qed.

(** C2, where the code departs from it.  [extract] returns report data for
    the configuration without sections only, and its plugins map is then
    empty; on a configuration with a section it raises [AttributeError] in
    the first iteration of its loop, on the reference to [ini.CORE], when
    the core extractor has run: no plugins map is returned. *)
Theorem extract_raises_on_first_section :
  (∀ cfg path (s : state W) data s',
      extract cfg path s = (Ok data, s') ->
      sections cfg = [] ∧ plugins data = [])
  ∧ (∀ cfg (s : state W) core w1,
      sections cfg ≠ [] ->
      core_extractor_run cfg (world s) = (Ok core, w1) ->
      extract cfg None s = (Err no_core, after_call EvCoreExtract w1 s)).
Proof.
  split.
  - intros cfg path s data s'. rewrite extract_eq, extract_body_eq.
    destruct (path_given path); [done|].
    destruct (core_extractor_run cfg (world s)) as [[core|e] w]; [|done].
    case_decide; [|done]. by intros [= <- _].
  - intros cfg s core w1 Hsec Hcore. rewrite extract_eq, extract_body_eq.
    simpl. rewrite Hcore. by rewrite decide_False.
Qed.

(** C3, where the code departs from it.  [configure] returns for the
    configuration without sections only, and returns it as it is; on a
    configuration with a section it raises [AttributeError] in the first
    iteration of its loop, on the reference to [ini.CORE], in the state
    the reading of the input left: no handler is called, so that neither
    a Parameter Error nor a configuration comes back. *)
Theorem configure_raises_on_first_section :
  (∀ path_in path_out (s : state W) cfg_out s',
      configure path_in path_out s = (Ok cfg_out, s') ->
      read_ini_path path_in s = (Ok [], s') ∧ cfg_out = [])
  ∧ (∀ path_in (s s1 : state W) cfg_in,
      read_ini_path path_in s = (Ok cfg_in, s1) ->
      sections cfg_in ≠ [] ->
      configure path_in None s = (Err no_core, s1)).
Proof.
  split.
  - intros path_in path_out s cfg_out s'. rewrite configure_eq, configure_body_eq.
    destruct (path_given path_out); [done|].
    destruct (read_ini_path path_in s) as [[cfg_in|e] s1]; [|done].
    case_decide as Hsec; [|done]. intros [= <- <-].
    by destruct cfg_in.
  - intros path_in s s1 cfg_in Hread Hsec. rewrite configure_eq, configure_body_eq.
    simpl. rewrite Hread. by rewrite decide_False.
Qed.

(** C5, where the code departs from it.  [extract] calls no plugin and
    validates nothing: a call adds to the trace no event of a plugin; an
    exception it raises is the [AttributeError] of [self.validator], that
    of [ini.CORE], or one the core extractor raised -- never one of the
    validator of plugin data; and the data it returns has no entry. *)
Theorem extract_reaches_no_validation :
  (∀ cfg path (s : state W) r s',
      extract cfg path s = (r, s') ->
      ∃ evs, trace s' = trace s ++ evs ∧ forallb no_plugin_event evs = true)
  ∧ (∀ cfg path (s : state W) e s',
      extract cfg path s = (Err e, s') ->
      e = no_validator ∨ e = no_core
      ∨ ∃ w', core_extractor_run cfg (world s) = (Err e, w'))
  ∧ (∀ cfg path (s : state W) data s',
      extract cfg path s = (Ok data, s') -> plugins data = []).
Proof.
  split; [|split].
  - intros cfg path s r s'. rewrite extract_eq, extract_body_eq.
    destruct (path_given path).
    + intros [= <- <-]. exists []. by rewrite app_nil_r.
    + destruct (core_extractor_run cfg (world s)) as [[core|e] w];
        intros [= <- <-]; by exists [EvCoreExtract].
  - intros cfg path s e s'. rewrite extract_eq, extract_body_eq.
    destruct (path_given path); [intros [= <- _]; by left|].
    destruct (core_extractor_run cfg (world s)) as [[core|e'] w].
    + case_decide; [done|]. intros [= <- _]. right. by left.
    + intros [= <- _]. right. right. by exists w.
  - intros cfg path s data s'. rewrite extract_eq, extract_body_eq.
    destruct (path_given path); [done|].
    destruct (core_extractor_run cfg (world s)) as [[core|e] w]; [|done].
    case_decide; [|done]. by intros [= <- _].
Qed.
End SectionLoops.

Lemma extract_raises_on_first_section_witness :
  ∃ s', Main.extract Fixture.ordered_config None Fixture.s0 = (Err no_core, s')
        ∧ trace s' = [EvCoreExtract].
Proof.
  eexists. split.
  - eapply (proj2 (extract_raises_on_first_section (W:=Fixture.filesystem))).
    + done.
    + reflexivity.
  - reflexivity.
Defined.

Lemma configure_raises_on_first_section_witness :
  ∃ s1,
    Main.read_ini_path "missing.ini" Fixture.s0
    = (Ok [("core", Fixture.core_section); ("demo1", [])], s1)
    ∧ Main.configure "missing.ini" None Fixture.s0 = (Err no_core, s1)
    ∧ trace s1 = [EvReadIni "missing.ini"].
Proof.
  eexists. split; [reflexivity|]. split.
  - eapply (proj2 (configure_raises_on_first_section (W:=Fixture.filesystem))).
    + reflexivity.
    + done.
  - reflexivity.
Defined.

(** The configuration whose second plugin extracts data without 'results':
    [extract] raises before the plugin is called. *)
Lemma extract_reaches_no_validation_witness :
  ∃ s', Main.extract Fixture.broken_config None Fixture.s0 = (Err no_core, s')
        ∧ no_core ≠ ValidationError "plugin data does not match the schema"
        ∧ trace s' = [EvCoreExtract].
Proof.
  destruct (Main.extract Fixture.broken_config None Fixture.s0)
    as [[data|e] s'] eqn:Hrun; [by vm_compute in Hrun|].
  destruct (extract_reaches_no_validation (W:=Fixture.filesystem))
    as (Hevents & Herror & _).
  destruct (Herror _ _ _ _ _ Hrun) as [->|[->|[w' Hcore]]].
  - by vm_compute in Hrun.
  - exists s'. split; [done|]. split; [done|].
    vm_compute in Hrun. by injection Hrun as <-.
  - by vm_compute in Hcore.
Defined.

(** The configuration without sections is configured and extracted. *)
Example configure_empty_configuration :
  fst (Main.configure "empty.ini" None Fixture.s0) = Ok [].
Proof. reflexivity. Qed.

Example extract_empty_configuration :
  fst (Main.extract [] None Fixture.s0)
  = Ok {| core_fields := [("core", JObj [])]; plugins := [] |}.
Proof. reflexivity. Qed.

(** ** All or nothing *)

Lemma writes_app (t1 t2 : list event) : writes (t1 ++ t2) = writes t1 ++ writes t2.
Proof. apply List.filter_app. Qed.

Lemma writes_no_write (evs : list event) :
  forallb no_write evs = true -> writes evs = [].
Proof.
  induction evs as [|ev evs IH]; simpl; [done|].
  intros [Hev Hevs]%andb_true_iff. unfold no_write in Hev.
  destruct (is_write ev); [done|auto].
Qed.

Section Abort.
Context {W : Type} `{Collaborators W}.
Import Main.

Lemma emits_writes {A} (m : M W A) s r s' :
  emits no_write m -> m s = (r, s') -> writes (trace s') = writes (trace s).
Proof.
  intros Hm Hs. destruct (Hm _ _ _ Hs) as (evs & -> & Hevs & _).
  by rewrite writes_app, (writes_no_write _ Hevs), app_nil_r.
Qed.

Lemma work_no_write {A} (m : M W A) : emits is_work m -> emits no_write m.
Proof. apply emits_weaken. by intros []. Qed.

Lemma emits_check_output_no_write validator path :
  emits no_write (check_output validator path).
Proof.
  unfold check_output. destruct (path_given path); [|emits_step].
  emits_step; [apply emits_self_attr|emits_step].
Qed.

(** The common shape of the three phases: when the computation between
    the check of the output path and the write raises, the phase raises
    the same exception, in the same state, and nothing has been written. *)
Lemma phase_abort {A} validator path (content : A -> payload) (body : M W A)
    (s s0 s1 : state W) e :
  emits is_work body ->
  check_output validator path s = (Ok tt, s0) ->
  body s0 = (Err e, s1) ->
  (check_output validator path;;
   x <- body;;
   write_output path (content x);;
   ret x)%run s = (Err e, s1)
  ∧ writes (trace s1) = writes (trace s).
Proof.
  intros Hbody Hcheck Hrun. split.
  - rewrite (bind_Ok _ _ _ _ _ Hcheck). by rewrite (bind_Err _ _ _ _ _ Hrun).
  - rewrite (emits_writes _ _ _ _ (work_no_write _ Hbody) Hrun).
    exact (emits_writes _ _ _ _ (emits_check_output_no_write _ _) Hcheck).
Qed.

Lemma configure_abort path_in path_out (s s0 s1 s2 s3 : state W)
    cfg_in pre name post acc e :
  check_output "validator" path_out s = (Ok tt, s0) ->
  read_ini_path path_in s0 = (Ok cfg_in, s1) ->
  sections cfg_in = pre ++ name :: post ->
  for_eachM pre (configure_section cfg_in) [] s1 = (Ok acc, s2) ->
  configure_section cfg_in name acc s2 = (Err e, s3) ->
  configure path_in path_out s = (Err e, s3)
  ∧ writes (trace s3) = writes (trace s).
Proof.
  intros Hcheck Hread Hsec Hpre Hstep.
  apply (phase_abort _ _ PConfig (configure_body path_in) s s0 s3 e);
    [apply emits_configure_body|done|].
  unfold configure_body. rewrite (bind_Ok _ _ _ _ _ Hread), Hsec.
  by apply for_eachM_abort with acc s2.
Qed.

Lemma extract_abort cfg path (s s0 s1 s2 s3 : state W)
    core pre name post acc e :
  check_output "validator" path s = (Ok tt, s0) ->
  call EvCoreExtract (core_extractor_run cfg) s0 = (Ok core, s1) ->
  sections cfg = pre ++ name :: post ->
  for_eachM pre (extract_section cfg)
            {| core_fields := core; plugins := [] |} s1 = (Ok acc, s2) ->
  extract_section cfg name acc s2 = (Err e, s3) ->
  extract cfg path s = (Err e, s3)
  ∧ writes (trace s3) = writes (trace s).
Proof.
  intros Hcheck Hcore Hsec Hpre Hstep.
  apply (phase_abort _ _ PJson (extract_body cfg) s s0 s3 e);
    [apply emits_extract_body|done|].
  unfold extract_body. rewrite (bind_Ok _ _ _ _ _ Hcore), Hsec.
  by apply for_eachM_abort with acc s2.
Qed.

Lemma render_abort data path (s s0 s1 s2 s3 : state W)
    header footer pre name post acc e :
  check_output "path_validator" path s = (Ok tt, s0) ->
  call EvCoreRender (core_renderer_run data) s0 = (Ok [header; footer], s1) ->
  dict_keys (plugins data) = pre ++ name :: post ->
  for_eachM pre (render_section data) [header] s1 = (Ok acc, s2) ->
  render_section data name acc s2 = (Err e, s3) ->
  render data path s = (Err e, s3)
  ∧ writes (trace s3) = writes (trace s).
Proof.
  intros Hcheck Hcore Hsec Hpre Hstep.
  apply (phase_abort _ _ PHtml (render_body data) s s0 s3 e);
    [apply emits_render_body|done|].
  unfold render_body. rewrite (bind_Ok _ _ _ _ _ Hcore).
  rewrite (bind_Ok (unpack2 [header; footer]) _ s1 (header, footer) s1 eq_refl),
    Hsec.
  erewrite bind_Err; [done|]. by apply for_eachM_abort with acc s2.
Qed.

(** A [render] method that raises makes the iteration for its plugin
    raise the same exception. *)
Lemma render_failure_raises data name acc (s s1 : state W) plugin pd e w' :
  PluginLoader.load name s = (Ok plugin, s1) ->
  dict_get name (plugins data) = Some pd ->
  p_render (methods plugin) pd (world s1) = (Err e, w') ->
  render_section data name acc s
  = (Err e, after_call (EvRender name) w' s1).
Proof.
  intros Hload Hpd Hrun.
  unfold render_section. rewrite (bind_Ok _ _ _ _ _ Hload), Hpd.
  rewrite (bind_Ok (ret pd) _ s1 pd s1 eq_refl).
  apply bind_Err. by rewrite call_eq, Hrun.
Qed.

(** C4.  In each phase, when the iterations for the sections before
    [name] succeed and the iteration for [name] raises -- whatever raises
    in it: the test of the section name, the load of the plugin, the
    handler, the validation of its data --, the phase raises that
    exception and returns nothing, the later sections are not processed,
    and nothing is written to an output file; and in [render] a plugin's
    handler that raises makes the iteration for the plugin raise. *)
Theorem phase_all_or_nothing :
  (∀ path_in path_out (s s0 s1 s2 s3 : state W) cfg_in pre name post acc e,
      check_output "validator" path_out s = (Ok tt, s0) ->
      read_ini_path path_in s0 = (Ok cfg_in, s1) ->
      sections cfg_in = pre ++ name :: post ->
      for_eachM pre (configure_section cfg_in) [] s1 = (Ok acc, s2) ->
      configure_section cfg_in name acc s2 = (Err e, s3) ->
      configure path_in path_out s = (Err e, s3)
      ∧ writes (trace s3) = writes (trace s))
  ∧ (∀ cfg path (s s0 s1 s2 s3 : state W) core pre name post acc e,
      check_output "validator" path s = (Ok tt, s0) ->
      call EvCoreExtract (core_extractor_run cfg) s0 = (Ok core, s1) ->
      sections cfg = pre ++ name :: post ->
      for_eachM pre (extract_section cfg)
                {| core_fields := core; plugins := [] |} s1 = (Ok acc, s2) ->
      extract_section cfg name acc s2 = (Err e, s3) ->
      extract cfg path s = (Err e, s3)
      ∧ writes (trace s3) = writes (trace s))
  ∧ (∀ data path (s s0 s1 s2 s3 : state W) header footer pre name post acc e,
      check_output "path_validator" path s = (Ok tt, s0) ->
      call EvCoreRender (core_renderer_run data) s0
        = (Ok [header; footer], s1) ->
      dict_keys (plugins data) = pre ++ name :: post ->
      for_eachM pre (render_section data) [header] s1 = (Ok acc, s2) ->
      render_section data name acc s2 = (Err e, s3) ->
      render data path s = (Err e, s3)
      ∧ writes (trace s3) = writes (trace s))
  ∧ (∀ data name acc (s s1 : state W) plugin pd e w',
      PluginLoader.load name s = (Ok plugin, s1) ->
      dict_get name (plugins data) = Some pd ->
      p_render (methods plugin) pd (world s1) = (Err e, w') ->
      render_section data name acc s
      = (Err e, after_call (EvRender name) w' s1)).
Proof.
  split; [|split; [|split]]; intros.
  - by eapply configure_abort.
  - by eapply extract_abort.
  - by eapply render_abort.
  - by eapply render_failure_raises.
Qed.
End Abort.

(** In the example world: [extract] on a configuration with sections, and
    [render], with an output path, of data whose second plugin fails the
    check of its [render]. *)
Lemma phase_all_or_nothing_witness :
  (∃ s', Main.extract Fixture.broken_config None Fixture.s0 = (Err no_core, s')
         ∧ writes (trace s') = [])
  ∧ (∃ s', Main.render Fixture.corrupt_data (Some "report.html") Fixture.s0
           = (Err (ValidationError "plugin data does not match the schema"), s')
           ∧ writes (trace s') = []
           ∧ trace s' = [EvValidateOutput "report.html"; EvCoreRender;
                         EvConstruct "echo2"; EvRender "echo2";
                         EvConstruct "demo1"; EvRender "demo1"]).
Proof.
  destruct (phase_all_or_nothing (W:=Fixture.filesystem))
    as (_ & Hextract & Hrender & Hhandler).
  split.
  - eexists.
    eapply Hextract with (pre := []) (name := "core")
                         (post := ["echo1"; "broken"; "echo2"]).
    + reflexivity.
    + reflexivity.
    + reflexivity.
    + reflexivity.
    + reflexivity.
  - edestruct Hrender
      with (data := Fixture.corrupt_data) (path := Some "report.html")
           (s := Fixture.s0) (pre := ["echo2"]) (name := "demo1")
           (post := ["echo1"])
      as [Hrun Hwrites].
    + reflexivity.
    + reflexivity.
    + reflexivity.
    + reflexivity.
    + eapply Hhandler.
      * reflexivity.
      * reflexivity.
      * reflexivity.
    + eexists. split; [exact Hrun|]. split; [exact Hwrites|reflexivity].
Defined.

(** ** render *)

Lemma join_cons (sep x y : string) (rest : list string) :
  join sep (x :: y :: rest) = x +:+ sep +:+ join sep (y :: rest).
Proof. reflexivity. Qed.

(** Joining a header, fragments and a footer with newlines gives the
    document of the specification. *)
Lemma join_document (header footer : string) (fragments : list string) :
  join NL ([header] ++ fragments ++ [footer]) = document header fragments footer.
Proof.
  unfold document. simpl.
  assert (∀ x fs, join NL (x :: fs ++ [footer])
                  = x +:+ NL +:+ foldr (fun f rest => f +:+ NL +:+ rest) footer fs)
    as Hjoin.
  { intros x fs. revert x. induction fs as [|f fs IH]; intros x; [done|].
    simpl app. rewrite join_cons. simpl foldr. by rewrite IH. }
  apply Hjoin.
Qed.

Section RenderProps.
Context {W : Type} `{Collaborators W}.
Import Main.

Lemma render_section_Ok data name acc (s : state W) acc' s' :
  render_section data name acc s = (Ok acc', s') ->
  ∃ plugin s1 pd frag w2,
    PluginLoader.load name s = (Ok plugin, s1)
    ∧ dict_get name (plugins data) = Some pd
    ∧ p_render (methods plugin) pd (world s1) = (Ok frag, w2)
    ∧ s' = {| world := w2; plugin_cache := plugin_cache s1;
              next_id := next_id s1; trace := trace s1 ++ [EvRender name] |}
    ∧ acc' = acc ++ [frag].
Proof.
  unfold render_section. intros Hrun.
  apply bind_Ok_inv in Hrun as (plugin & s1 & Hload & Hrun).
  apply bind_Ok_inv in Hrun as (pd & s2 & Hget & Hrun).
  destruct (dict_get name (plugins data)) as [pd'|]; [|done].
  injection Hget as -> ->.
  apply bind_Ok_inv in Hrun as (frag & s3 & Hcall & Hrun).
  injection Hrun as <- <-.
  unfold call, bind, emit, lift in Hcall. simpl in Hcall.
  destruct (p_render (methods plugin) pd (world s2)) as [[frag'|e] w2] eqn:Hr;
    [|done].
  injection Hcall as -> <-. by exists plugin, s2, pd, frag, w2.
Qed.

Lemma render_loop_Ok data names acc (s : state W) acc' s' :
  for_eachM names (render_section data) acc s = (Ok acc', s') ->
  ∃ fragments, rendered data names s fragments s' ∧ acc' = acc ++ fragments.
Proof.
  revert acc s. induction names as [|name names IH]; intros acc s; simpl.
  - intros [= <- <-]. exists []. split; [constructor|by rewrite app_nil_r].
  - intros Hrun. apply bind_Ok_inv in Hrun as (acc1 & s1 & Hstep & Hrun).
    apply render_section_Ok in Hstep
      as (plugin & s2 & pd & frag & w2 & Hload & Hget & Hrender & -> & ->).
    destruct (IH _ _ Hrun) as (frags & Hrest & ->).
    exists (frag :: frags). split; [by econstructor|by rewrite <- app_assoc].
Qed.

(** C1.  The string [render] returns is the header, the fragment of each
    plugin of the data taken in the order of the plugins map, and the
    footer, with one newline between consecutive elements; when the data
    has no plugin it is the header, a newline and the footer. *)
Theorem render_document data path (s : state W) html s' :
  render data path s = (Ok html, s') ->
  ∃ header footer fragments s1 s2,
    (∃ w w', core_renderer_run data w = (Ok [header; footer], w'))
    ∧ rendered data (dict_keys (plugins data)) s1 fragments s2
    ∧ length fragments = length (plugins data)
    ∧ html = join NL ([header] ++ fragments ++ [footer])
    ∧ html = document header fragments footer
    ∧ (plugins data = [] -> html = header +:+ NL +:+ footer).
Proof.
  unfold render. intros Hrun.
  apply bind_Ok_inv in Hrun as ([] & sa & _ & Hrun).
  apply bind_Ok_inv in Hrun as (html1 & sb & Hbody & Hrun).
  apply bind_Ok_inv in Hrun as ([] & sc & _ & Hrun).
  injection Hrun as <- <-. unfold render_body in Hbody.
  apply bind_Ok_inv in Hbody as (hf & s1 & Hcore & Hbody).
  apply bind_Ok_inv in Hbody as ([header footer] & s1' & Hunpack & Hbody).
  destruct hf as [|h [|f [|x hf]]]; try discriminate Hunpack.
  injection Hunpack as -> -> <-.
  apply bind_Ok_inv in Hbody as (sections_out & s2 & Hloop & Hbody).
  injection Hbody as <- <-.
  apply render_loop_Ok in Hloop as (fragments & Hrendered & ->).
  assert (length fragments = length (plugins data)) as Hlen.
  { assert (∀ names sA frs sB,
              rendered data names sA frs sB -> length frs = length names) as Hl
      by (induction 1; simpl; auto).
    rewrite (Hl _ _ _ _ Hrendered). unfold dict_keys. by rewrite length_fmap. }
  exists header, footer, fragments, s1, s2.
  split; [|split; [done|split; [done|split; [|split]]]].
  - unfold call, bind, emit, lift in Hcore. simpl in Hcore.
    destruct (core_renderer_run data (world sa)) as [[l|e] w'] eqn:Hr; [|done].
    injection Hcore as -> _. eauto.
  - by rewrite <- app_assoc.
  - rewrite <- app_assoc. apply join_document.
  - intros Hnone. rewrite Hnone in Hlen. destruct fragments; [done|done].
Qed.
End RenderProps.

Lemma render_document_witness :
  ∃ html s', Main.render Fixture.ordered_data None Fixture.s0 = (Ok html, s')
    ∧ ∃ header footer fragments,
        length fragments = 3 ∧ html = document header fragments footer.
Proof.
  destruct (Main.render Fixture.ordered_data None Fixture.s0)
    as [[html|e] s'] eqn:Hrun; [|by vm_compute in Hrun].
  exists html, s'. split; [done|].
  destruct (render_document _ _ _ _ _ Hrun)
    as (header & footer & fragments & _ & _ & _ & _ & Hlen & _ & Hdoc & _).
  by exists header, footer, fragments.
Defined.

Example render_ordered_data :
  fst (Main.render Fixture.ordered_data None Fixture.s0)
  = Ok (document "<html>"
          ["<p>echo2</p>"; "<h3>TODO demo1 plugin output goes here</h3>";
           "<p>echo1</p>"]
          "</html>").
Proof. reflexivity. Qed.

(** ** Output paths *)

Section OutputPaths.
Context {W : Type} `{Collaborators W}.
Import Main.

Lemma check_output_validator path (s : state W) :
  path ≠ "" -> check_output "validator" (Some path) s = (Err no_validator, s).
Proof.
  intros Hpath. unfold check_output, path_given.
  rewrite decide_False by done. reflexivity.
Qed.

(** C6, where the code departs from it.  Called with an output path,
    [configure] and [extract] raise [AttributeError] at once, on the
    reference to [self.validator]: the path is not validated, no section
    is processed and nothing is written. *)
Theorem configure_extract_with_output_path_raise
    path_in cfg path (s : state W) :
  path ≠ "" ->
  configure path_in (Some path) s = (Err no_validator, s)
  ∧ extract cfg (Some path) s = (Err no_validator, s).
Proof.
  intros Hpath. unfold configure, extract.
  by rewrite !(bind_Err _ _ _ _ _ (check_output_validator path s Hpath)).
Qed.

End OutputPaths.

Lemma configure_extract_with_output_path_raise_witness :
  Main.configure "config.ini" (Some "out.ini") Fixture.s0
  = (Err no_validator, Fixture.s0)
  ∧ Main.extract Fixture.demo_config (Some "out.json") Fixture.s0
    = (Err no_validator, Fixture.s0).
Proof.
  split.
  - apply (configure_extract_with_output_path_raise
             "config.ini" Fixture.demo_config "out.ini" Fixture.s0). done.
  - apply (configure_extract_with_output_path_raise
             "config.ini" Fixture.demo_config "out.json" Fixture.s0). done.
Defined.

(** ** The demo1 plugin *)

Section Demo1Props.
Context {W : Type} `{PluginBase.Ops W}.
Import PluginBase Demo1.

Lemma extract_inv (self : params) cfg (w : W) data w' :
  extract self cfg w = (Ok data, w') ->
  ∃ wr w1 priorities w2 attributes w3,
    get_config_wrapper self cfg w = (Ok wr, w1)
    ∧ get_my_priorities wr w1 = (Ok priorities, w2)
    ∧ get_my_attributes wr w2 = (Ok attributes, w3)
    ∧ write_string "question.txt"
        "What do you get if you multiply six by nine?" w3 = (Ok tt, w')
    ∧ data = data_of self priorities attributes.
Proof.
  unfold extract, abind, aret.
  destruct (get_config_wrapper self cfg w) as [[wr|e] w1] eqn:Hwr; [|done].
  destruct (get_my_priorities wr w1) as [[pr|e] w2] eqn:Hpr; [|done].
  destruct (get_my_attributes wr w2) as [[at_|e] w3] eqn:Hat; [|done].
  destruct (write_string _ _ w3) as [[[]|e] w4] eqn:Hws; [|done].
  intros [= <- <-]. by exists wr, w1, pr, w2, at_, w3.
Qed.

(** C8.  A demo1 object is constructed with the required parameter
    [question] and the defaults [clinical = True], [supplementary = False]
    and [dummy_file = None].  Its [extract] returns, whenever the calls to
    the configuration wrapper and the workspace succeed, and only then,
    plugin data whose [results] is the empty object and whose
    [merge_inputs] maps [gene_information_merger] to a list of two gene
    records.  Its [render] returns one fragment whenever the check of the
    base class accepts the data, and only then. *)
Theorem demo1_contract :
  (∀ id, ini_required (init id) = {["question"]}
         ∧ ini_defaults (init id)
           = [("clinical", JBool true); ("supplementary", JBool false);
              ("dummy_file", JNull)])
  ∧ (∀ self cfg (w : W) wr w1 priorities w2 attributes w3 w4,
       get_config_wrapper self cfg w = (Ok wr, w1) ->
       get_my_priorities wr w1 = (Ok priorities, w2) ->
       get_my_attributes wr w2 = (Ok attributes, w3) ->
       write_string "question.txt"
         "What do you get if you multiply six by nine?" w3 = (Ok tt, w4) ->
       extract self cfg w = (Ok (data_of self priorities attributes), w4))
  ∧ (∀ self cfg (w : W) data w',
       extract self cfg w = (Ok data, w') ->
       py_getitem data "results" = Ok (JObj [])
       ∧ ∃ genes,
           py_getitem data "merge_inputs"
           = Ok (JObj [("gene_information_merger", JList genes)])
           ∧ genes = [KRAS; PIK3CA]
           ∧ length genes = 2
           ∧ Forall (fun g => Reader.is_obj g = true) genes)
  ∧ (∀ self data (w w1 : W),
       base_render self data w = (Ok tt, w1) ->
       render self data w = (Ok fragment, w1))
  ∧ (∀ self data (w : W) frag w',
       render self data w = (Ok frag, w') ->
       frag = fragment ∧ base_render self data w = (Ok tt, w')).
Proof.
  split; [|split; [|split; [|split]]].
  - intros id. split; [|reflexivity]. simpl. apply union_empty_r_L.
  - intros self cfg w wr w1 pr w2 at_ w3 w4 Hwr Hpr Hat Hws.
    unfold extract, abind, aret. by rewrite Hwr, Hpr, Hat, Hws.
  - intros self cfg w data w' Hrun.
    apply extract_inv in Hrun as (wr & w1 & pr & w2 & at_ & w3 & _ & _ & _ & _ & ->).
    split; [reflexivity|]. exists [KRAS; PIK3CA].
    split; [reflexivity|]. split; [reflexivity|]. split; [reflexivity|].
    by repeat constructor.
  - intros self data w w1 Hbase. unfold render, abind, aret. by rewrite Hbase.
  - intros self data w frag w'. unfold render, abind, aret.
    destruct (base_render self data w) as [[[]|e] w1]; [|done].
    by intros [= <- <-].
Qed.
End Demo1Props.

Lemma demo1_contract_witness :
  ∃ data w1 frag w2,
    Demo1.extract (Demo1.init "demo1") Fixture.demo1_section Fixture.w0
    = (Ok data, w1)
    ∧ py_getitem data "results" = Ok (JObj [])
    ∧ py_getitem data "merge_inputs"
      = Ok (JObj [("gene_information_merger", JList [Demo1.KRAS; Demo1.PIK3CA])])
    ∧ Demo1.render (Demo1.init "demo1") data w1 = (Ok frag, w2)
    ∧ frag = Demo1.fragment.
Proof.
  destruct (demo1_contract (W:=Fixture.filesystem))
    as (_ & Hextract & Hshape & Hrender & _).
  eexists _, _, _, _.
  split; [eapply Hextract; reflexivity|].
  split; [reflexivity|]. split; [reflexivity|].
  split; [eapply Hrender; reflexivity|]. reflexivity.
Defined.

(** [render] with an output path: the path is checked first and the
    document written last. *)
Example render_with_output_path :
  trace (snd (Main.render Fixture.ordered_data (Some "report.html") Fixture.s0))
  = [EvValidateOutput "report.html"; EvCoreRender;
     EvConstruct "echo2"; EvRender "echo2";
     EvConstruct "demo1"; EvRender "demo1";
     EvConstruct "echo1"; EvRender "echo1";
     EvWrite "report.html"
       (PHtml (document "<html>"
                 ["<p>echo2</p>"; "<h3>TODO demo1 plugin output goes here</h3>";
                  "<p>echo1</p>"]
                 "</html>"))].
Proof. reflexivity. Qed.


(** * Further properties *)

(** ** Loops, dictionaries and Python equality *)

Lemma for_each_app {A S} (xs ys : list A) (body : A -> S -> result S) (s : S) :
  for_each (xs ++ ys) body s = rbind (for_each xs body s) (for_each ys body).
Proof.
  revert s; induction xs as [|x xs IH]; intros s; simpl; [done|].
  destruct (body x s); simpl; auto.
Qed.


















(** ** reader.update_sample *)

Section UpdateSample.
Variable str_of : json -> string.
Import Reader ReaderUpdate.






End UpdateSample.

(** ** reader.update_genes *)


Section UpdateGenes.
Variable str_of : json -> string.
Import Reader ReaderUpdate.






End UpdateGenes.

(** ** json_reader *)

Lemma key_eqb_norm (a b : pykey) :
  key_eqb a b = bool_decide (key_norm a = key_norm b).
Proof.
  destruct a as [|[]|x|s], b as [|[]|y|t]; simpl;
    try reflexivity; apply bool_decide_ext; split; congruence.
Qed.

Lemma key_eqb_refl (k : pykey) : key_eqb k k = true.
Proof. rewrite key_eqb_norm. by apply bool_decide_eq_true_2. Qed.



Import Reader.






Section JsonReader.
Variable str_of : json -> string.
Import ReaderUpdate.




End JsonReader.

(** ** reader_factory *)

Section FactoryProps.
Variable load_schema : json -> result json.
Import ReaderFactory.


End FactoryProps.


(** ** The order of [render] on an example *)


(** ** The reader on examples *)







